(** * Flight Booking API: a shallow embedding of [main.py] and [schemas.py]

    The development follows the two source files.  Documents of the three
    MongoDB collections are records carrying their [_id]; a handler is a
    small program over the store operations it calls ([find_one],
    [create_document], [update_one]), so that the same definition of
    [create_booking] can be run alone (one request after another) or
    interleaved with other requests, one store operation at a time: the
    store performs each single-document operation atomically, and nothing
    in [main.py] holds two of them together.

    Conventions.
    - Python [int] is [Z]; [len] is [Z.of_nat] of [length].
    - Python [float] is the kernel's binary64 [float].
    - [str] is [string], holding the UTF-8 bytes of the text.  [Py.upper] is
      [str.upper] on text of ASCII characters; [Py.str_upper] is [str.upper]
      on any text, Unicode's table outside ASCII being a parameter.
    - A naive [datetime] is a record of its fields, an aware one that record
      with its offset.  [Datetime.add] is [+] where the sum is a date;
      [Datetime.plus] is [+] with its [OverflowError].
    - [Main] holds the handlers of [main.py] on the requests the routing
      layer hands them; [search_flights] is there for a query with ASCII
      codes and a naive date that has a next day.  [Http] holds the two POST
      routes with the parsing of the body in front, and [search_flights] on
      every query.
    - [db] is the connected store; [ensure_seed] alone looks at [db is None].
    - [root] and [test_database] are left out. *)

From Stdlib Require Import ZArith NArith List String Ascii Bool Lia.
From Stdlib Require Import Permutation Sorted DecimalString.
From Stdlib Require Import PrimFloat Uint63.
Import ListNotations.

Local Open Scope string_scope.
Local Open Scope list_scope.
Local Open Scope Z_scope.

(** ** Python built-ins used by the handlers *)
Module Py.

Definition len {A : Type} (l : list A) : Z := Z.of_nat (List.length l).

(** [float(n)] for an [int] that fits 63 bits (every count and price here). *)
Definition float_of_int (n : Z) : float :=
  if 0 <=? n then PrimFloat.of_uint63 (Uint63.of_Z n)
  else PrimFloat.opp (PrimFloat.of_uint63 (Uint63.of_Z (- n))).

(** [str(n)] for an [int]. *)
Definition str_of_int (n : Z) : string := NilZero.string_of_int (Z.to_int n).

Definition upper_ascii (c : ascii) : ascii :=
  let n := nat_of_ascii c in
  if (97 <=? n)%nat && (n <=? 122)%nat then ascii_of_nat (n - 32) else c.

(** [s.upper()], for a text of ASCII characters *)
Fixpoint upper (s : string) : string :=
  match s with
  | EmptyString => EmptyString
  | String c s' => String (upper_ascii c) (upper s')
  end.

(** [range(lo, hi)] *)
Definition range (lo hi : Z) : list Z :=
  map (fun i => lo + Z.of_nat i) (seq 0 (Z.to_nat (hi - lo))).

(** A [str] is held as its UTF-8 bytes: a character (a code point) is one
    byte below 128, or a lead byte followed by continuation bytes (128 to
    191). *)
Definition is_ascii_char (c : ascii) : bool := (nat_of_ascii c <? 128)%nat.

Definition is_continuation (c : ascii) : bool :=
  (128 <=? nat_of_ascii c)%nat && (nat_of_ascii c <? 192)%nat.

(** [s.isascii()] *)
Fixpoint isascii (s : string) : bool :=
  match s with
  | EmptyString => true
  | String c s' => is_ascii_char c && isascii s'
  end.

(** [len(s)] for a [str]: the number of its characters. *)
Fixpoint str_len (s : string) : Z :=
  match s with
  | EmptyString => 0
  | String c s' => (if is_continuation c then 0 else 1) + str_len s'
  end.

(** [s.upper()] for any [str].  Python puts each character in upper case by
    Unicode's table: on ASCII that is [upper_ascii]; [unicode_upper] is what
    the table gives for a run of characters outside ASCII (["SS"] for the
    sharp s, for one). *)
Definition flush (unicode_upper : string -> string) (run : string) : string :=
  match run with
  | EmptyString => EmptyString
  | _ => unicode_upper run
  end.

Fixpoint str_upper_from (unicode_upper : string -> string) (run s : string) : string :=
  match s with
  | EmptyString => flush unicode_upper run
  | String c s' =>
      if is_ascii_char c
      then (flush unicode_upper run
            ++ String (upper_ascii c) (str_upper_from unicode_upper EmptyString s'))%string
      else str_upper_from unicode_upper (run ++ String c EmptyString)%string s'
  end.

Definition str_upper (unicode_upper : string -> string) (s : string) : string :=
  str_upper_from unicode_upper EmptyString s.

End Py.

(** ** [bson.ObjectId]: twelve bytes, written as 24 hexadecimal digits *)
Module Bson.

(** An id is read as the number its twelve bytes spell. *)
Abbreviation ObjectId_t := N.

Definition hex_digit (c : ascii) : option N :=
  let n := N_of_ascii c in
  if (48 <=? n)%N && (n <=? 57)%N then Some (n - 48)%N
  else if (97 <=? n)%N && (n <=? 102)%N then Some (n - 87)%N
  else if (65 <=? n)%N && (n <=? 70)%N then Some (n - 55)%N
  else None.

Fixpoint hex_value (s : string) (acc : N) : option N :=
  match s with
  | EmptyString => Some acc
  | String c s' =>
      match hex_digit c with
      | Some d => hex_value s' (16 * acc + d)%N
      | None => None
      end
  end.

(** [ObjectId(s)] for a [str]: [None] stands for [InvalidId].  (bson reads
    the 24 characters with [bytes.fromhex], which skips white space: a text
    of 24 characters with white space among hex digits is outside this
    definition.) *)
Definition ObjectId (s : string) : option ObjectId_t :=
  if (String.length s =? 24)%nat then hex_value s 0%N else None.

Definition hex_char (d : N) : ascii :=
  if (d <? 10)%N then ascii_of_N (48 + d) else ascii_of_N (87 + d).

Fixpoint hex_str (k : nat) (n : N) (acc : string) : string :=
  match k with
  | O => acc
  | S k' => hex_str k' (n / 16)%N (String (hex_char (n mod 16)%N) acc)
  end.

(** [str(oid)] *)
Definition str (oid : ObjectId_t) : string := hex_str 24 oid "".

End Bson.

(** ** Naive [datetime] values and [timedelta] *)
Module Datetime.

Record datetime : Type := mk_datetime
  { ordinal : Z;       (* the day, as [date.toordinal()] *)
    hour : Z;
    minute : Z;
    second : Z;
    microsecond : Z }.

(** Microseconds since the start of day 0. *)
Definition to_us (t : datetime) : Z :=
  (((ordinal t * 24 + hour t) * 60 + minute t) * 60 + second t) * 1000000
  + microsecond t.

Definition of_us (u : Z) : datetime :=
  {| ordinal := u / 86400000000;
     hour := (u / 3600000000) mod 24;
     minute := (u / 60000000) mod 60;
     second := (u / 1000000) mod 60;
     microsecond := u mod 1000000 |}.

(** [timedelta(days=d, hours=h, minutes=m)], in microseconds. *)
Definition timedelta (d h m : Z) : Z := ((d * 24 + h) * 60 + m) * 60000000.

(** [t + delta], where the sum is a date ([plus] below has the check). *)
Definition add (t : datetime) (delta : Z) : datetime := of_us (to_us t + delta).

(** [t.replace(hour=h, minute=0, second=0, microsecond=0)] *)
Definition replace_hour (t : datetime) (h : Z) : datetime :=
  {| ordinal := ordinal t; hour := h; minute := 0; second := 0; microsecond := 0 |}.

Definition leb (a b : datetime) : bool := to_us a <=? to_us b.
Definition ltb (a b : datetime) : bool := to_us a <? to_us b.

(** Python has the days from 0001-01-01 (day 1) to 9999-12-31. *)
Definition MAXORDINAL : Z := 3652059.

Definition representable (u : Z) : bool :=
  (86400000000 <=? u) && (u <? (MAXORDINAL + 1) * 86400000000).

(** [t + delta] as Python computes it: [None] stands for the [OverflowError]
    of a sum that is no date. *)
Definition plus (t : datetime) (delta : Z) : option datetime :=
  let u := to_us t + delta in
  if representable u then Some (of_us u) else None.

(** A [datetime] with its [tzinfo]: naive when [utcoffset] is [None], else
    aware, with its offset from UTC in minutes (a body writes an offset in
    hours and minutes). *)
Record zoned : Type := mk_zoned
  { fields : datetime; utcoffset : option Z }.

(** What the driver sends for a [datetime]: UTC microseconds, of a naive
    value as it is, of an aware one after [dtm - dtm.utcoffset()], which
    raises [OverflowError] ([None]) when the result is no date. *)
Definition to_utc (z : zoned) : option Z :=
  match utcoffset z with
  | None => Some (to_us (fields z))
  | Some m =>
      let u := to_us (fields z) - m * 60000000 in
      if representable u then Some u else None
  end.

End Datetime.

(** ** [schemas.py] *)
Module Schemas.

Record Airport : Type := mk_Airport
  { code : string; name : string; city : string; country : string }.

Record Flight : Type := mk_Flight
  { flight_number : string;
    origin : string;
    destination : string;
    departure_time : Datetime.datetime;
    arrival_time : Datetime.datetime;
    price : float;
    seats_total : Z;
    seats_available : Z }.

Record Passenger : Type := mk_Passenger
  { first_name : string;
    last_name : string;
    email : string;
    document_number : option string }.

Record Booking : Type := mk_Booking
  { flight_id : string;
    contact_email : string;
    passengers : list Passenger;
    total_amount : float;
    status : string }.

(** [Field(..., min_length=3, max_length=3)] on [code]. *)
Definition Airport_ok (a : Airport) : bool := (String.length (code a) =? 3)%nat.

(** [Field(..., ge=0)] on [price], [ge=1] on [seats_total], [ge=0] on
    [seats_available]: the checks made when a [Flight] is constructed. *)
Definition Flight_ok (f : Flight) : bool :=
  PrimFloat.leb 0%float (price f) && (1 <=? seats_total f) && (0 <=? seats_available f).

(** [Field(..., ge=0)] on [total_amount].  The e-mail fields hold values
    that were validated when the request was parsed. *)
Definition Booking_ok (b : Booking) : bool := PrimFloat.leb 0%float (total_amount b).

End Schemas.

(** ** The document store ([database.py] and the pymongo calls of [main.py]) *)
Module Database.

(** A stored document: the model's fields and the [_id] the store gave it. *)
Record Doc (I A : Type) : Type := mk_Doc { _id : I; body : A }.
Arguments mk_Doc {I A}.
Arguments _id {I A}.
Arguments body {I A}.

Definition Stored (A : Type) : Type := Doc Bson.ObjectId_t A.

Record Store : Type := mk_Store
  { airport : list (Stored Schemas.Airport);
    flight : list (Stored Schemas.Flight);
    booking : list (Stored Schemas.Booking);
    next_oid : Bson.ObjectId_t  (* supply of fresh ids *) }.

Definition empty : Store :=
  {| airport := []; flight := []; booking := []; next_oid := 0%N |}.

(** [insert_many]: the documents get consecutive fresh ids, in order. *)
Fixpoint with_ids {A : Type} (next : N) (l : list A) : list (Stored A) :=
  match l with
  | [] => []
  | a :: l' => mk_Doc next a :: with_ids (N.succ next) l'
  end.

Definition fresh_after {A : Type} (next : N) (l : list A) : N :=
  (next + N.of_nat (List.length l))%N.

Definition insert_many_airport (l : list Schemas.Airport) (db : Store) : Store :=
  {| airport := airport db ++ with_ids (next_oid db) l;
     flight := flight db;
     booking := booking db;
     next_oid := fresh_after (next_oid db) l |}.

Definition insert_many_flight (l : list Schemas.Flight) (db : Store) : Store :=
  {| airport := airport db;
     flight := flight db ++ with_ids (next_oid db) l;
     booking := booking db;
     next_oid := fresh_after (next_oid db) l |}.

(** [collection.count_documents({})] *)
Definition count_documents {A : Type} (c : list A) : Z := Py.len c.

(** [db["flight"].find_one({"_id": oid})] *)
Definition find_one (oid : Bson.ObjectId_t) (db : Store) : option (Stored Schemas.Flight) :=
  find (fun d => (_id d =? oid)%N) (flight db).

(** The [$inc] of [seats_available] on one document. *)
Definition inc_seats (k : Z) (d : Stored Schemas.Flight) : Stored Schemas.Flight :=
  let f := body d in
  mk_Doc (_id d)
    {| Schemas.flight_number := Schemas.flight_number f;
       Schemas.origin := Schemas.origin f;
       Schemas.destination := Schemas.destination f;
       Schemas.departure_time := Schemas.departure_time f;
       Schemas.arrival_time := Schemas.arrival_time f;
       Schemas.price := Schemas.price f;
       Schemas.seats_total := Schemas.seats_total f;
       Schemas.seats_available := Schemas.seats_available f + k |}.

(** The first document matching [{"_id": oid}] is updated, the others kept. *)
Fixpoint update_first (oid : Bson.ObjectId_t) (k : Z)
    (l : list (Stored Schemas.Flight)) : list (Stored Schemas.Flight) :=
  match l with
  | [] => []
  | d :: l' => if (_id d =? oid)%N then inc_seats k d :: l'
               else d :: update_first oid k l'
  end.

(** [db["flight"].update_one({"_id": oid}, {"$inc": {"seats_available": k}})]:
    the filter names the id only, the increment is applied whatever the
    counter holds. *)
Definition update_one (oid : Bson.ObjectId_t) (k : Z) (db : Store) : Store :=
  {| airport := airport db;
     flight := update_first oid k (flight db);
     booking := booking db;
     next_oid := next_oid db |}.

(** Modelled from the spec: [create_document] of [database.py], which is not
    among the sources.  "Persist a new Booking record ...; return its id":
    the record is added to the booking collection under a fresh id, and the
    id is returned as a string. *)
Definition create_document (b : Schemas.Booking) (db : Store) : string * Store :=
  (Bson.str (next_oid db),
   {| airport := airport db;
      flight := flight db;
      booking := booking db ++ [mk_Doc (next_oid db) b];
      next_oid := N.succ (next_oid db) |}).

(** [collection.find(filter)], in the collection's own order. *)
Definition find_many {A : Type} (flt : A -> bool) (c : list (Stored A)) : list (Stored A) :=
  filter (fun d => flt (body d)) c.

(** [cursor.sort("departure_time", 1)]: ascending, by insertion. *)
Fixpoint insert_by_departure (d : Stored Schemas.Flight)
    (l : list (Stored Schemas.Flight)) : list (Stored Schemas.Flight) :=
  match l with
  | [] => [d]
  | e :: l' =>
      if Datetime.leb (Schemas.departure_time (body d)) (Schemas.departure_time (body e))
      then d :: l
      else e :: insert_by_departure d l'
  end.

Definition sort_by_departure (l : list (Stored Schemas.Flight)) : list (Stored Schemas.Flight) :=
  fold_right insert_by_departure [] l.

End Database.


(** ** [main.py] *)
Module Main.

Import Database.

(** [HTTPException(status_code=..., detail=...)] *)
Record HTTPException : Type := mk_HTTPException
  { status_code : Z; detail : string }.

(** What a handler call ends with: its return value or the exception raised. *)
Inductive Outcome (A : Type) : Type :=
| Ok (a : A)
| Err (e : HTTPException).
Arguments Ok {A}.
Arguments Err {A}.

(** *** Models for requests and responses *)

Record SearchQuery : Type := mk_SearchQuery
  { origin : string; destination : string; date : Datetime.datetime }.

Record PassengerIn : Type := mk_PassengerIn
  { first_name : string;
    last_name : string;
    email : string;
    document_number : option string }.

Record BookingRequest : Type := mk_BookingRequest
  { flight_id : string;
    contact_email : string;
    passengers : list PassengerIn }.

Record BookingResponse : Type := mk_BookingResponse
  { booking_id : string; status : string }.

(** The 422 answer of the routing layer to a body that does not parse
    (the spec's ValidationError). *)
Definition RequestValidationError : HTTPException :=
  {| status_code := 422; detail := "Unprocessable Entity" |}.

(** An exception that is not an [HTTPException] leaves the handler as a 500. *)
Definition InternalServerError : HTTPException :=
  {| status_code := 500; detail := "Internal Server Error" |}.

(** [to_str_id]: a copy of the document whose [_id] is a string. *)
Definition to_str_id {A : Type} (doc : Stored A) : Doc string A :=
  mk_Doc (Bson.str (_id doc)) (body doc).

(** *** Utility and seed data *)

Definition AIRPORTS_SAMPLE : list Schemas.Airport :=
  [ Schemas.mk_Airport "IKA" "Imam Khomeini International" "Tehran" "Iran";
    Schemas.mk_Airport "MHD" "Mashhad International" "Mashhad" "Iran";
    Schemas.mk_Airport "SYZ" "Shiraz International" "Shiraz" "Iran";
    Schemas.mk_Airport "IFN" "Isfahan International" "Isfahan" "Iran";
    Schemas.mk_Airport "THR" "Mehrabad" "Tehran" "Iran" ].

Definition AIRLINES : list string := ["IR"; "W5"; "QB"; "EP"].

Definition routes : list (string * string) :=
  [("IKA", "MHD"); ("IKA", "SYZ"); ("THR", "MHD"); ("IFN", "IKA")].

Definition price_base : list ((string * string) * Z) :=
  [(("IKA", "MHD"), 70); (("IKA", "SYZ"), 65); (("THR", "MHD"), 60); (("IFN", "IKA"), 55)].

(** [price_base[(o, dst)]]; [None] stands for [KeyError]. *)
Definition price_base_get (r : string * string) : option Z :=
  match find (fun e => String.eqb (fst (fst e)) (fst r) && String.eqb (snd (fst e)) (snd r))
             price_base with
  | Some e => Some (snd e)
  | None => None
  end.

(** The body of the inner loop of [ensure_seed]: the flight built for day [d]
    and route [r] when [flights] holds what was built before.  [None] stands
    for an exception ([KeyError], or the validation error of [Flight]). *)
Definition seed_flight (base : Datetime.datetime) (d : Z) (r : string * string)
    (flights : list Schemas.Flight) : option Schemas.Flight :=
  let dep := Datetime.add base (Datetime.timedelta d ((d mod 3) * 3) 0) in
  let arr := Datetime.add dep (Datetime.timedelta 0 1 10) in
  let airline := nth (Z.to_nat ((d + Py.len flights) mod Py.len AIRLINES)) AIRLINES "" in
  let flight_number :=
    (airline ++ "-" ++ Py.str_of_int (100 + d * 5 + Py.len flights mod 5))%string in
  match price_base_get r with
  | None => None
  | Some pb =>
      let f :=
        {| Schemas.flight_number := flight_number;
           Schemas.origin := fst r;
           Schemas.destination := snd r;
           Schemas.departure_time := dep;
           Schemas.arrival_time := arr;
           Schemas.price := Py.float_of_int (pb + d * 5);
           Schemas.seats_total := 120;
           Schemas.seats_available := 120 - d * 3 |} in
      if Schemas.Flight_ok f then Some f else None
  end.

Definition seed_route (base : Datetime.datetime) (d : Z)
    (acc : option (list Schemas.Flight)) (r : string * string)
    : option (list Schemas.Flight) :=
  match acc with
  | None => None
  | Some flights =>
      match seed_flight base d r flights with
      | Some f => Some (flights ++ [f])
      | None => None
      end
  end.

(** The two nested loops: [for d in range(0, 5): for (o, dst) in routes: ...]. *)
Definition seed_flights (base : Datetime.datetime) : option (list Schemas.Flight) :=
  fold_left (fun acc d => fold_left (seed_route base d) routes acc) (Py.range 0 5) (Some []).

(** [ensure_seed()], as its effect on [db]; [utcnow] is what
    [datetime.utcnow()] returns.  An exception raised while the flights are
    built leaves the airports seeded; [startup_event] swallows it. *)
Definition ensure_seed (utcnow : Datetime.datetime) (db : option Store) : option Store :=
  match db with
  | None => None
  | Some db =>
      let db1 :=
        if count_documents (airport db) =? 0 then insert_many_airport AIRPORTS_SAMPLE db
        else db in
      if count_documents (flight db1) =? 0 then
        let base := Datetime.replace_hour utcnow 6 in
        match seed_flights base with
        | None => Some db1
        | Some [] => Some db1
        | Some flights => Some (insert_many_flight flights db1)
        end
      else Some db1
  end.

Definition startup_event (utcnow : Datetime.datetime) (db : option Store) : option Store :=
  ensure_seed utcnow db.

(** *** Flights *)

(** The filter document of [search_flights], for a query with codes of ASCII
    characters and a naive date that has a next day ([Http.search_flights]
    below is the handler on every query, and agrees with this one there). *)
Definition search_filter (q : SearchQuery) (f : Schemas.Flight) : bool :=
  let start := Datetime.replace_hour (date q) 0 in
  let end_ := Datetime.add start (Datetime.timedelta 1 0 0) in
  String.eqb (Schemas.origin f) (Py.upper (origin q))
  && String.eqb (Schemas.destination f) (Py.upper (destination q))
  && (Datetime.leb start (Schemas.departure_time f)
      && Datetime.ltb (Schemas.departure_time f) end_)
  && (0 <? Schemas.seats_available f).

Definition search_flights (q : SearchQuery) (db : Store) : list (Doc string Schemas.Flight) :=
  let flts := sort_by_departure (find_many (search_filter q) (flight db)) in
  map to_str_id flts.

(** The order of [sort("departure_time", 1)]. *)
Definition departs_le (a b : Stored Schemas.Flight) : Prop :=
  Datetime.to_us (Schemas.departure_time (body a))
  <= Datetime.to_us (Schemas.departure_time (body b)).

(** *** Handlers as programs over the store operations *)

Inductive Prog (A : Type) : Type :=
| Ret (a : A)
| Raise (e : HTTPException)
| FindOne (oid : Bson.ObjectId_t) (k : option (Stored Schemas.Flight) -> Prog A)
| CreateDocument (b : Schemas.Booking) (k : string -> Prog A)
| UpdateOne (oid : Bson.ObjectId_t) (inc : Z) (k : unit -> Prog A).
Arguments Ret {A}.
Arguments Raise {A}.
Arguments FindOne {A}.
Arguments CreateDocument {A}.
Arguments UpdateOne {A}.

Notation "x <- op ;; k" := (op (fun x => k))
  (at level 61, op at next level, right associativity, only parsing).

Definition get_flight (flight_id : string) : Prog (Doc string Schemas.Flight) :=
  match Bson.ObjectId flight_id with
  | None => Raise (mk_HTTPException 400 "Invalid flight id")
  | Some oid =>
      f <- FindOne oid ;;
      match f with
      | None => Raise (mk_HTTPException 404 "Flight not found")
      | Some f => Ret (to_str_id f)
      end
  end.

(** *** Bookings *)

(** [Passenger(first_name=p.first_name, ...).model_dump()] *)
Definition Passenger_of (p : PassengerIn) : Schemas.Passenger :=
  {| Schemas.first_name := first_name p;
     Schemas.last_name := last_name p;
     Schemas.email := email p;
     Schemas.document_number := document_number p |}.

Definition create_booking (req : BookingRequest) : Prog BookingResponse :=
  match Bson.ObjectId (flight_id req) with
  | None => Raise (mk_HTTPException 400 "Invalid flight id")
  | Some fid =>
      flight <- FindOne fid ;;
      match flight with
      | None => Raise (mk_HTTPException 404 "Flight not found")
      | Some flight =>
          if Schemas.seats_available (body flight) <? Py.len (passengers req)
          then Raise (mk_HTTPException 400 "Not enough seats available")
          else
            let passengers := map Passenger_of (passengers req) in
            let total_amount :=
              PrimFloat.mul (Schemas.price (body flight))
                            (Py.float_of_int (Py.len passengers)) in
            let booking :=
              {| Schemas.flight_id := flight_id req;
                 Schemas.contact_email := contact_email req;
                 Schemas.passengers := passengers;
                 Schemas.total_amount := total_amount;
                 Schemas.status := "confirmed" |} in
            if Schemas.Booking_ok booking then
              bid <- CreateDocument booking ;;
              _ <- UpdateOne fid (- Py.len passengers) ;;
              Ret {| booking_id := bid; status := "confirmed" |}
            else Raise InternalServerError
      end
  end.

(** *** Running a handler *)

(** The store operations a handler performs, for traces. *)
Inductive Op : Type :=
| OpFindOne (oid : Bson.ObjectId_t)
| OpCreateDocument (b : Schemas.Booking)
| OpUpdateOne (oid : Bson.ObjectId_t) (inc : Z).

(** One store operation of [p] on [db]: the rest of the program and the
    store after it.  A finished program does nothing. *)
Definition step {A : Type} (p : Prog A) (db : Store) : Prog A * Store :=
  match p with
  | Ret _ | Raise _ => (p, db)
  | FindOne oid k => (k (find_one oid db), db)
  | CreateDocument b k => let '(bid, db') := create_document b db in (k bid, db')
  | UpdateOne oid inc k => (k tt, update_one oid inc db)
  end.

(** The whole handler with nothing in between its operations. *)
Fixpoint run {A : Type} (p : Prog A) (db : Store) : Outcome A * Store :=
  match p with
  | Ret a => (Ok a, db)
  | Raise e => (Err e, db)
  | FindOne oid k => run (k (find_one oid db)) db
  | CreateDocument b k => let '(bid, db') := create_document b db in run (k bid) db'
  | UpdateOne oid inc k => run (k tt) (update_one oid inc db)
  end.

(** The operations of that run, in order. *)
Fixpoint trace {A : Type} (p : Prog A) (db : Store) : list Op :=
  match p with
  | Ret _ | Raise _ => []
  | FindOne oid k => OpFindOne oid :: trace (k (find_one oid db)) db
  | CreateDocument b k =>
      let '(bid, db') := create_document b db in OpCreateDocument b :: trace (k bid) db'
  | UpdateOne oid inc k => OpUpdateOne oid inc :: trace (k tt) (update_one oid inc db)
  end.

Definition finished {A : Type} (p : Prog A) : bool :=
  match p with
  | Ret _ | Raise _ => true
  | _ => false
  end.

Definition succeeded {A : Type} (p : Prog A) : bool :=
  match p with
  | Ret _ => true
  | _ => false
  end.

(** *** Requests in flight together

    Each request is served by its own worker; the store serialises single
    operations, not handlers.  A state of the system is the store and the
    programs the workers still have to run; a schedule names the worker that
    performs its next store operation. *)
Record System : Type := mk_System
  { store : Store; workers : list (Prog BookingResponse) }.

Fixpoint set_nth {A : Type} (i : nat) (x : A) (l : list A) : list A :=
  match l, i with
  | [], _ => []
  | _ :: l', O => x :: l'
  | y :: l', S i' => y :: set_nth i' x l'
  end.

Definition sched_step (sys : System) (i : nat) : System :=
  match nth_error (workers sys) i with
  | None => sys
  | Some p =>
      let '(p', db') := step p (store sys) in
      {| store := db'; workers := set_nth i p' (workers sys) |}
  end.

Definition exec (schedule : list nat) (sys : System) : System :=
  fold_left sched_step schedule sys.

Definition start (db : Store) (reqs : list BookingRequest) : System :=
  {| store := db; workers := map create_booking reqs |}.

Definition quiescent (sys : System) : bool := forallb finished (workers sys).

(** *** Seat accounting *)

(** [seats_available] of the flight with the given id, 0 when there is none
    (as [flight.get("seats_available", 0)] reads it). *)
Definition seats_available_of (oid : Bson.ObjectId_t) (db : Store) : Z :=
  match find_one oid db with
  | Some f => Schemas.seats_available (body f)
  | None => 0
  end.

(** A booking references the flight [oid] when its [flight_id] parses to it
    (the join of [list_bookings]). *)
Definition references (oid : Bson.ObjectId_t) (b : Schemas.Booking) : bool :=
  match Bson.ObjectId (Schemas.flight_id b) with
  | Some o => (o =? oid)%N
  | None => false
  end.

Definition confirmed_for (oid : Bson.ObjectId_t) (b : Stored Schemas.Booking) : bool :=
  references oid (body b) && String.eqb (Schemas.status (body b)) "confirmed".

(** Passengers over all confirmed bookings that reference the flight. *)
Definition booked (oid : Bson.ObjectId_t) (db : Store) : Z :=
  fold_right (fun b acc => Py.len (Schemas.passengers (body b)) + acc) 0
             (filter (confirmed_for oid) (booking db)).

(** The booking document [create_booking] builds from the request and the
    flight document it read. *)
Definition booking_for (req : BookingRequest) (flight : Stored Schemas.Flight)
    : Schemas.Booking :=
  {| Schemas.flight_id := flight_id req;
     Schemas.contact_email := contact_email req;
     Schemas.passengers := map Passenger_of (passengers req);
     Schemas.total_amount :=
       PrimFloat.mul (Schemas.price (body flight))
                     (Py.float_of_int (Py.len (passengers req)));
     Schemas.status := "confirmed" |}.

(** Seats of bookings already written by a worker whose decrement is still
    to come: what the next operation of [p] will take from the flight. *)
Definition pending (oid : Bson.ObjectId_t) (p : Prog BookingResponse) : Z :=
  match p with
  | UpdateOne o inc _ => if (o =? oid)%N then - inc else 0
  | _ => 0
  end.

Definition pending_all (oid : Bson.ObjectId_t) (ws : list (Prog BookingResponse)) : Z :=
  fold_right (fun p acc => pending oid p + acc) 0 ws.

(** The writes among the operations of a trace. *)
Definition is_write (o : Op) : bool :=
  match o with
  | OpFindOne _ => false
  | _ => true
  end.

Definition writes (t : list Op) : list Op := filter is_write t.

(** The places of [create_booking] at which a worker can stand, given the
    store: before its lookup, between the lookup and the booking write,
    between the booking write and the decrement, or at its end. *)
Inductive worker_at (db : Store) : Prog BookingResponse -> Prop :=
| at_start (req : BookingRequest) :
    worker_at db (create_booking req)
| at_end (p : Prog BookingResponse) :
    finished p = true -> worker_at db p
| at_write (b : Schemas.Booking) (k : string -> Prog BookingResponse)
    (oid : Bson.ObjectId_t) :
    Bson.ObjectId (Schemas.flight_id b) = Some oid ->
    Schemas.status b = "confirmed" ->
    find_one oid db <> None ->
    (forall bid, exists k', k bid = UpdateOne oid (- Py.len (Schemas.passengers b)) k'
                            /\ forall u, finished (k' u) = true) ->
    worker_at db (CreateDocument b k)
| at_decrement (oid : Bson.ObjectId_t) (inc : Z) (k : unit -> Prog BookingResponse) :
    find_one oid db <> None ->
    inc <= 0 ->
    (forall u, finished (k u) = true) ->
    worker_at db (UpdateOne oid inc k).

(** What every store operation of [create_booking] keeps: a flight that is
    in the store stays there, with the capacity it has and no seat added. *)
Definition keeps_flights (db db' : Store) : Prop :=
  forall oid f,
    find_one oid db = Some f ->
    exists f', find_one oid db' = Some f'
               /\ Schemas.seats_total (body f') = Schemas.seats_total (body f)
               /\ Schemas.seats_available (body f') <= Schemas.seats_available (body f).

(** The seats of a flight that are accounted for: those left, and those of
    the confirmed bookings whose decrement has been applied. *)
Definition accounted (oid : Bson.ObjectId_t) (sys : System) : Z :=
  seats_available_of oid (store sys) + booked oid (store sys)
  - pending_all oid (workers sys).

(** What [ensure_seed] gives every flight it builds. *)
Definition seeded_seats (f : Schemas.Flight) : Prop :=
  Schemas.seats_total f = 120
  /\ exists d, 0 <= d < 5 /\ Schemas.seats_available f = 120 - d * 3.

(** The same of the flights built so far, through the loops of [ensure_seed]. *)
Definition all_seeded (acc : option (list Schemas.Flight)) : Prop :=
  match acc with
  | Some flights => Forall seeded_seats flights
  | None => True
  end.

End Main.

(** ** The scenarios of the specification, as concrete stores and requests *)
Module Scenario.

Import Database Main.

Definition passenger : PassengerIn :=
  {| first_name := "Sara"; last_name := "Ahmadi"; email := "sara@example.com";
     document_number := None |}.

(** Flight F: price 70.0 and a given number of seats left. *)
Definition F_id : Bson.ObjectId_t := 1%N.

Definition F (seats : Z) : Stored Schemas.Flight :=
  mk_Doc F_id
    {| Schemas.flight_number := "IR-100";
       Schemas.origin := "IKA";
       Schemas.destination := "MHD";
       Schemas.departure_time := Datetime.mk_datetime 739000 6 0 0 0;
       Schemas.arrival_time := Datetime.mk_datetime 739000 7 10 0 0;
       Schemas.price := 70%float;
       Schemas.seats_total := 120;
       Schemas.seats_available := seats |}.

Definition db_F (seats : Z) : Store :=
  {| airport := []; flight := [F seats]; booking := []; next_oid := 2%N |}.

(** A request for [n] passengers on the flight with id [oid]. *)
Definition request (oid : Bson.ObjectId_t) (n : nat) : BookingRequest :=
  {| flight_id := Bson.str oid;
     contact_email := "sara@example.com";
     passengers := repeat passenger n |}.

(** A stand-in for the e-mail check: an address is a local part, an [@] sign
    and a domain, and its valid form has the domain in lower case. *)
Definition lower_ascii (c : ascii) : ascii :=
  let n := nat_of_ascii c in
  if (65 <=? n)%nat && (n <=? 90)%nat then ascii_of_nat (n + 32) else c.

Fixpoint lower (s : string) : string :=
  match s with
  | EmptyString => EmptyString
  | String c s' => String (lower_ascii c) (lower s')
  end.

Fixpoint normalize_from (local : string) (s : string) : option string :=
  match s with
  | EmptyString => None
  | String c s' =>
      if Ascii.eqb c "@"%char then
        match local, s' with
        | EmptyString, _ | _, EmptyString => None
        | _, _ => Some (local ++ String c (lower s'))%string
        end
      else normalize_from (local ++ String c EmptyString)%string s'
  end.

Definition normalize (s : string) : option string := normalize_from EmptyString s.

(** A stand-in for Unicode's table outside ASCII: the sharp s becomes [SS],
    as in Unicode; the rest is left alone. *)
Definition sharp_s : string := String (ascii_of_nat 195) (String (ascii_of_nat 159) EmptyString).

Definition sharp_s_upper (run : string) : string :=
  if String.eqb run sharp_s then "SS" else run.



(** A second flight on the route and day of [F], three hours later. *)
Definition G (seats : Z) : Stored Schemas.Flight :=
  mk_Doc 2%N
    {| Schemas.flight_number := "W5-101";
       Schemas.origin := "IKA";
       Schemas.destination := "MHD";
       Schemas.departure_time := Datetime.mk_datetime 739000 9 0 0 0;
       Schemas.arrival_time := Datetime.mk_datetime 739000 10 10 0 0;
       Schemas.price := 65%float;
       Schemas.seats_total := 120;
       Schemas.seats_available := seats |}.

Definition db_GF : Store :=
  {| airport := []; flight := [G 7; F 2]; booking := []; next_oid := 3%N |}.

(** A flight on the last day Python has, 9999-12-31. *)
Definition last_day : Z := 3652059.

Definition Z_flight : Stored Schemas.Flight :=
  mk_Doc 1%N
    {| Schemas.flight_number := "IR-999";
       Schemas.origin := "IKA";
       Schemas.destination := "MHD";
       Schemas.departure_time := Datetime.mk_datetime last_day 6 0 0 0;
       Schemas.arrival_time := Datetime.mk_datetime last_day 7 10 0 0;
       Schemas.price := 70%float;
       Schemas.seats_total := 120;
       Schemas.seats_available := 120 |}.

Definition db_last_day : Store :=
  {| airport := []; flight := [Z_flight]; booking := []; next_oid := 2%N |}.

(** The store right after [startup_event] on an empty database. *)
Definition utcnow0 : Datetime.datetime := Datetime.mk_datetime 739000 13 45 12 345.

Definition seeded0 : Store :=
  match startup_event utcnow0 (Some Database.empty) with
  | Some db => db
  | None => Database.empty
  end.

(** A seeded flight, by id. *)
Definition seeded_flight (oid : Bson.ObjectId_t) : Stored Schemas.Flight :=
  match find_one oid seeded0 with
  | Some f => f
  | None => F 0
  end.

(** Two workers that take turns, one store operation each. *)
Definition turns : list nat := [0; 1; 0; 1; 0; 1]%nat.

(** Two workers, the second after the first has finished. *)
Definition one_by_one : list nat := [0; 0; 0; 1; 1; 1]%nat.

End Scenario.

(** ** The listing handlers of [main.py] *)
Module Listing.

(** Modelled from the spec: [get_documents] of [database.py], which is not
    among the sources.  "Returns bookings optionally filtered by contact
    email": the documents of the collection that match the filter, in the
    collection's order. *)
Definition get_documents {A : Type} (flt : A -> bool) (c : list (Database.Stored A))
    : list (Database.Stored A) :=
  Database.find_many flt c.

(** [list_airports] *)
Definition list_airports (db : Database.Store) : list (Database.Doc string Schemas.Airport) :=
  map Main.to_str_id (get_documents (fun _ => true) (Database.airport db)).

(** The filter [flt] of [list_bookings]: [if email: flt["contact_email"] = str(email)];
    an absent or empty address leaves the filter empty. *)
Definition booking_filter (email : option string) (b : Schemas.Booking) : bool :=
  match email with
  | None => true
  | Some e => if String.eqb e "" then true else String.eqb (Schemas.contact_email b) e
  end.

(** An element of the answer of [list_bookings]: the booking with its id as a
    string and, when the lookup found one, the key ["flight"]. *)
Record BookingItem : Type := mk_BookingItem
  { booking : Database.Doc string Schemas.Booking;
    flight : option (Database.Doc string Schemas.Flight) }.

(** The body of the loop of [list_bookings] for one booking; [None] stands
    for the [InvalidId] that [ObjectId(b["flight_id"])] raises. *)
Definition join_flight (db : Database.Store) (b : Database.Stored Schemas.Booking)
    : option BookingItem :=
  if String.eqb (Schemas.flight_id (Database.body b)) "" then
    Some {| booking := Main.to_str_id b; flight := None |}
  else
    match Bson.ObjectId (Schemas.flight_id (Database.body b)) with
    | None => None
    | Some oid =>
        Some {| booking := Main.to_str_id b;
                flight := option_map Main.to_str_id (Database.find_one oid db) |}
    end.

(** The loop: the first exception ends it. *)
Fixpoint join_all (db : Database.Store) (items : list (Database.Stored Schemas.Booking))
    : option (list BookingItem) :=
  match items with
  | [] => Some []
  | b :: items' =>
      match join_flight db b with
      | None => None
      | Some item =>
          match join_all db items' with
          | None => None
          | Some results => Some (item :: results)
          end
      end
  end.

Definition list_bookings (email : option string) (db : Database.Store)
    : Main.Outcome (list BookingItem) :=
  let items := get_documents (booking_filter email) (Database.booking db) in
  match join_all db items with
  | Some results => Main.Ok results
  | None => Main.Err Main.InternalServerError
  end.

End Listing.

(** ** The two POST routes, with the parsing of the body in front *)
Module Http.

Import Database Main.

(** *** [POST /api/flights/search] *)

(** The [SearchQuery] pydantic builds from a body: [date] is naive or aware,
    as the body writes it. *)
Record SearchQuery : Type := mk_SearchQuery
  { origin : string; destination : string; date : Datetime.zoned }.

(** [Field(..., min_length=3, max_length=3)] on both codes: three characters. *)
Definition SearchQuery_ok (q : SearchQuery) : bool :=
  (Py.str_len (origin q) =? 3) && (Py.str_len (destination q) =? 3).

(** [start] and [end] of [search_flights], as the store compares them with
    the stored times (in UTC).  [replace] keeps the [tzinfo]; [None] stands
    for the [OverflowError] of [start + timedelta(days=1)], or of the driver
    when it puts an aware value in UTC. *)
Definition search_window (q : SearchQuery) : option (Z * Z) :=
  let tz := Datetime.utcoffset (date q) in
  let start := Datetime.replace_hour (Datetime.fields (date q)) 0 in
  match Datetime.plus start (Datetime.timedelta 1 0 0) with
  | None => None
  | Some end_ =>
      match Datetime.to_utc (Datetime.mk_zoned start tz),
            Datetime.to_utc (Datetime.mk_zoned end_ tz) with
      | Some lo, Some hi => Some (lo, hi)
      | _, _ => None
      end
  end.

(** The filter document, with [start] and [end] as [w]. *)
Definition search_filter (unicode_upper : string -> string) (q : SearchQuery)
    (w : Z * Z) (f : Schemas.Flight) : bool :=
  String.eqb (Schemas.origin f) (Py.str_upper unicode_upper (origin q))
  && String.eqb (Schemas.destination f) (Py.str_upper unicode_upper (destination q))
  && ((fst w <=? Datetime.to_us (Schemas.departure_time f))
      && (Datetime.to_us (Schemas.departure_time f) <? snd w))
  && (0 <? Schemas.seats_available f).

(** [search_flights(q)]: an exception that is no [HTTPException] is answered
    with a 500. *)
Definition search_flights (unicode_upper : string -> string) (q : SearchQuery) (db : Store)
    : Outcome (list (Doc string Schemas.Flight)) :=
  match search_window q with
  | None => Err InternalServerError
  | Some w =>
      let flts := sort_by_departure (find_many (search_filter unicode_upper q w) (flight db)) in
      Ok (map to_str_id flts)
  end.

(** The route: a body that fails the checks of [SearchQuery] is answered 422,
    the handler not called. *)
Definition post_flights_search (unicode_upper : string -> string) (q : SearchQuery)
    (db : Store) : Outcome (list (Doc string Schemas.Flight)) :=
  if SearchQuery_ok q then search_flights unicode_upper q db
  else Err RequestValidationError.

(** The query of [Main] for a naive date. *)
Definition naive (q : Main.SearchQuery) : SearchQuery :=
  {| origin := Main.origin q;
     destination := Main.destination q;
     date := Datetime.mk_zoned (Main.date q) None |}.

(** *** [POST /api/bookings] *)

Section RequestParsing.

(** [EmailStr], the check of the validation package: the address in its
    valid form (the domain in lower case, for one), or [None] when it is
    refused.  [Passenger] and [Booking] check the addresses once more in the
    handler; a valid form is its own valid form, so they keep them. *)
Variable EmailStr : string -> option string.

(** A body with the fields of [BookingRequest], as strings, is a
    [BookingRequest] not yet checked. *)
Definition parse_PassengerIn (p : PassengerIn) : option PassengerIn :=
  match EmailStr (email p) with
  | Some e =>
      Some {| first_name := first_name p;
              last_name := last_name p;
              email := e;
              document_number := document_number p |}
  | None => None
  end.

Fixpoint parse_passengers (l : list PassengerIn) : option (list PassengerIn) :=
  match l with
  | [] => Some []
  | p :: l' =>
      match parse_PassengerIn p, parse_passengers l' with
      | Some p', Some ps => Some (p' :: ps)
      | _, _ => None
      end
  end.

Definition parse_BookingRequest (raw : BookingRequest) : option BookingRequest :=
  match EmailStr (contact_email raw), parse_passengers (passengers raw) with
  | Some e, Some ps =>
      Some {| flight_id := flight_id raw; contact_email := e; passengers := ps |}
  | _, _ => None
  end.

(** The route: the body is parsed, the handler runs on what the parsing gives. *)
Definition post_bookings (raw : BookingRequest) : Prog BookingResponse :=
  match parse_BookingRequest raw with
  | Some req => create_booking req
  | None => Raise RequestValidationError
  end.

End RequestParsing.

End Http.

(** ** Notions used to state what the handlers keep *)
Module Facts.

Import Database Main.

(** Requests served one after another, each with its outcome. *)
Fixpoint serve (reqs : list BookingRequest) (db : Store)
    : list (BookingRequest * Outcome BookingResponse) * Store :=
  match reqs with
  | [] => ([], db)
  | req :: reqs' =>
      let '(out, db1) := run (create_booking req) db in
      let '(outs, db2) := serve reqs' db1 in
      ((req, out) :: outs, db2)
  end.

Definition is_ok {A : Type} (o : Outcome A) : bool :=
  match o with
  | Ok _ => true
  | Err _ => false
  end.

(** The passengers of the served requests that succeeded on the flight [oid]. *)
Definition consumed (oid : Bson.ObjectId_t)
    (served : list (BookingRequest * Outcome BookingResponse)) : Z :=
  fold_right
    (fun ro acc =>
       (if is_ok (snd ro)
           && match Bson.ObjectId (flight_id (fst ro)) with
              | Some o => (o =? oid)%N
              | None => false
              end
        then Py.len (passengers (fst ro)) else 0) + acc)
    0 served.

(** The midnight that opens the day of a date, in UTC microseconds: of a
    naive date the start of its day, of an aware one that start less its
    offset. *)
Definition midnight_utc (z : Datetime.zoned) : Z :=
  Datetime.ordinal (Datetime.fields z) * 86400000000
  - match Datetime.utcoffset z with
    | None => 0
    | Some m => m * 60000000
    end.

(** The day of a date has both its ends: the date is before 9999-12-31, and
    in UTC the day begins on 0001-01-01 or later and ends before the last
    midnight of 9999. *)
Definition day_has_both_ends (z : Datetime.zoned) : Prop :=
  1 <= Datetime.ordinal (Datetime.fields z) < 3652059
  /\ 86400000000 <= midnight_utc z
  /\ midnight_utc z + 86400000000 < 3652060 * 86400000000.

(** The flights a search is asked for: route [o] to [d], departure in the
    day that begins at [lo], a seat left. *)
Definition wanted (o d : string) (lo : Z) (f : Schemas.Flight) : bool :=
  String.eqb (Schemas.origin f) o
  && String.eqb (Schemas.destination f) d
  && ((lo <=? Datetime.to_us (Schemas.departure_time f))
      && (Datetime.to_us (Schemas.departure_time f) <? lo + 86400000000))
  && (0 <? Schemas.seats_available f).

(** The letters of ASCII, each in its two cases. *)
Definition letters : list (ascii * ascii) :=
  combine (list_ascii_of_string "abcdefghijklmnopqrstuvwxyz")
          (list_ascii_of_string "ABCDEFGHIJKLMNOPQRSTUVWXYZ").

(** Two bytes that are equal, or the two cases of one ASCII letter. *)
Definition same_letter (a b : ascii) : bool :=
  Ascii.eqb a b
  || existsb (fun p => (Ascii.eqb a (fst p) && Ascii.eqb b (snd p))
                       || (Ascii.eqb a (snd p) && Ascii.eqb b (fst p)))
             letters.

(** Two texts that differ in the case of ASCII letters at most. *)
Fixpoint same_ignoring_case (s t : string) : bool :=
  match s, t with
  | EmptyString, EmptyString => true
  | String a s', String b t' => same_letter a b && same_ignoring_case s' t'
  | _, _ => false
  end.

(** The clock is early enough for the five days of seeding to be dates. *)
Definition five_days_ahead (utcnow : Datetime.datetime) : Prop :=
  1 <= Datetime.ordinal utcnow <= 3652055.

(** Two flight documents that differ in [seats_available] at most. *)
Definition same_but_seats (f f' : Stored Schemas.Flight) : Prop :=
  _id f' = _id f
  /\ Schemas.flight_number (body f') = Schemas.flight_number (body f)
  /\ Schemas.origin (body f') = Schemas.origin (body f)
  /\ Schemas.destination (body f') = Schemas.destination (body f)
  /\ Schemas.departure_time (body f') = Schemas.departure_time (body f)
  /\ Schemas.arrival_time (body f') = Schemas.arrival_time (body f)
  /\ Schemas.price (body f') = Schemas.price (body f)
  /\ Schemas.seats_total (body f') = Schemas.seats_total (body f).

(** The bookings of a store all name a stored flight. *)
Definition linked (db : Store) : Prop :=
  Forall (fun b => exists oid,
                     Bson.ObjectId (Schemas.flight_id (body b)) = Some oid
                     /\ find_one oid db <> None)
         (booking db).

(** A program that ends after at most [n] store operations, whatever the
    store answers. *)
Inductive within {A : Type} : nat -> Prog A -> Prop :=
| within_finished (n : nat) (p : Prog A) :
    finished p = true -> within n p
| within_find_one (n : nat) (oid : Bson.ObjectId_t) (k : option (Stored Schemas.Flight) -> Prog A) :
    (forall x, within n (k x)) -> within (S n) (FindOne oid k)
| within_create_document (n : nat) (b : Schemas.Booking) (k : string -> Prog A) :
    (forall x, within n (k x)) -> within (S n) (CreateDocument b k)
| within_update_one (n : nat) (oid : Bson.ObjectId_t) (inc : Z) (k : unit -> Prog A) :
    (forall x, within n (k x)) -> within (S n) (UpdateOne oid inc k).

(** A property of all the flights built so far by the loops of
    [ensure_seed]. *)
Definition all_flights (P : Schemas.Flight -> Prop) (acc : option (list Schemas.Flight))
    : Prop :=
  match acc with
  | Some flights => Forall P flights
  | None => True
  end.

(** A flight as the loops of [ensure_seed] build it at [utcnow]. *)
Definition seeded_at (utcnow : Datetime.datetime) (f : Schemas.Flight) : Prop :=
  Schemas.Flight_ok f = true
  /\ In (Schemas.origin f, Schemas.destination f) routes
  /\ exists d,
       0 <= d < 5
       /\ Schemas.departure_time f
          = Datetime.mk_datetime (Datetime.ordinal utcnow + d) (6 + 3 * (d mod 3)) 0 0 0
       /\ Datetime.to_us (Schemas.arrival_time f)
          = Datetime.to_us (Schemas.departure_time f) + 4200000000
       /\ Schemas.seats_total f = 120
       /\ Schemas.seats_available f = 120 - d * 3.

(** A booking and the element of the answer it gives: the booking with its
    id as a string, and under ["flight"] the flight its [flight_id] names, as
    the store has it now. *)
Definition listed (db : Store) (b : Stored Schemas.Booking) (item : Listing.BookingItem)
    : Prop :=
  Listing.booking item = to_str_id b
  /\ exists oid f,
       Bson.ObjectId (Schemas.flight_id (body b)) = Some oid
       /\ find_one oid db = Some f
       /\ Listing.flight item = Some (to_str_id f).

(** Every worker ends within the number of store operations its place in
    the list is given. *)
Definition budgeted {A : Type} (budget : nat -> nat) (ws : list (Prog A)) : Prop :=
  forall i p, nth_error ws i = Some p -> within (budget i) p.

(** The store has room for ids of twelve bytes and its flights have
    different ids. *)
Definition flight_ids_ok (db : Store) : Prop :=
  NoDup (map _id (flight db))
  /\ Forall (fun d => (_id d < 16 ^ 24)%N) (flight db).

End Facts.


(** * Properties *)

Import Database Main.

(** ** Lists and built-ins *)

Lemma len_map {A B : Type} (f : A -> B) (l : list A) : Py.len (map f l) = Py.len l.
Proof. unfold Py.len. now rewrite length_map. Qed.

Lemma len_nonneg {A : Type} (l : list A) : 0 <= Py.len l.
Proof. unfold Py.len. lia. Qed.

Lemma len_nil_iff {A : Type} (l : list A) : Py.len l = 0 <-> l = [].
Proof.
  unfold Py.len. destruct l as [|a l]; simpl; split; intro H;
    try reflexivity; try discriminate; lia.
Qed.

(** ** The store operations *)

Lemma find_one_create_document (oid : Bson.ObjectId_t) (b : Schemas.Booking) (db : Store) :
  find_one oid (snd (create_document b db)) = find_one oid db.
Proof. reflexivity. Qed.

Lemma find_update_first (o oid : Bson.ObjectId_t) (k : Z) (l : list (Stored Schemas.Flight)) :
  find (fun d => (_id d =? o)%N) (update_first oid k l) =
  match find (fun d => (_id d =? o)%N) l with
  | Some f => Some (if (o =? oid)%N then inc_seats k f else f)
  | None => None
  end.
Proof.
  induction l as [|d l IH]; simpl.
  - reflexivity.
  - destruct (N.eqb_spec (_id d) oid) as [Hd|Hd]; simpl;
      destruct (N.eqb_spec (_id d) o) as [Ho|Ho]; simpl.
    + rewrite <- Ho, Hd, N.eqb_refl. reflexivity.
    + destruct (find (fun d0 => (_id d0 =? o)%N) l) as [f|]; [|reflexivity].
      destruct (N.eqb_spec o oid); [congruence|reflexivity].
    + destruct (N.eqb_spec o oid); [congruence|reflexivity].
    + exact IH.
Qed.

Lemma find_one_update_one (o oid : Bson.ObjectId_t) (k : Z) (db : Store) :
  find_one o (update_one oid k db) =
  match find_one o db with
  | Some f => Some (if (o =? oid)%N then inc_seats k f else f)
  | None => None
  end.
Proof. unfold find_one, update_one; simpl. apply find_update_first. Qed.

Lemma seats_update_one (o oid : Bson.ObjectId_t) (k : Z) (db : Store) :
  seats_available_of o (update_one oid k db) =
  match find_one o db with
  | Some f => Schemas.seats_available (body f) + (if (o =? oid)%N then k else 0)
  | None => 0
  end.
Proof.
  unfold seats_available_of. rewrite find_one_update_one.
  destruct (find_one o db) as [f|]; [|reflexivity].
  destruct (o =? oid)%N; simpl; lia.
Qed.

Lemma booked_create_document (oid : Bson.ObjectId_t) (b : Schemas.Booking) (db : Store) :
  booked oid (snd (create_document b db)) =
  booked oid db
  + (if references oid b && String.eqb (Schemas.status b) "confirmed"
     then Py.len (Schemas.passengers b) else 0).
Proof.
  unfold booked; simpl. rewrite filter_app; simpl.
  unfold confirmed_for at 2; simpl.
  generalize (filter (confirmed_for oid) (booking db)) as l.
  induction l as [|x l IH]; simpl.
  - destruct (references oid b && _)%bool; simpl; lia.
  - rewrite IH. lia.
Qed.

(** ** [create_booking] run alone: its result and its operations *)

Lemma create_booking_run (req : BookingRequest) (db : Store) :
  run (create_booking req) db =
  match Bson.ObjectId (flight_id req) with
  | None => (Err (mk_HTTPException 400 "Invalid flight id"), db)
  | Some fid =>
      match find_one fid db with
      | None => (Err (mk_HTTPException 404 "Flight not found"), db)
      | Some f =>
          if Schemas.seats_available (body f) <? Py.len (passengers req)
          then (Err (mk_HTTPException 400 "Not enough seats available"), db)
          else if Schemas.Booking_ok (booking_for req f)
          then (Ok {| booking_id := Bson.str (next_oid db); status := "confirmed" |},
                update_one fid (- Py.len (passengers req))
                           (snd (create_document (booking_for req f) db)))
          else (Err InternalServerError, db)
      end
  end.
Proof.
  unfold create_booking.
  destruct (Bson.ObjectId (flight_id req)) as [fid|]; [|reflexivity].
  simpl. destruct (find_one fid db) as [f|]; [|reflexivity].
  destruct (Schemas.seats_available (body f) <? Py.len (passengers req)); [reflexivity|].
  rewrite len_map. fold (booking_for req f).
  destruct (Schemas.Booking_ok (booking_for req f)); reflexivity.
Qed.

Lemma create_booking_trace (req : BookingRequest) (db : Store) :
  trace (create_booking req) db =
  match Bson.ObjectId (flight_id req) with
  | None => []
  | Some fid =>
      OpFindOne fid ::
      match find_one fid db with
      | None => []
      | Some f =>
          if Schemas.seats_available (body f) <? Py.len (passengers req) then []
          else if Schemas.Booking_ok (booking_for req f)
          then [OpCreateDocument (booking_for req f);
                OpUpdateOne fid (- Py.len (passengers req))]
          else []
      end
  end.
Proof.
  unfold create_booking.
  destruct (Bson.ObjectId (flight_id req)) as [fid|]; [|reflexivity].
  simpl. destruct (find_one fid db) as [f|]; [|reflexivity].
  destruct (Schemas.seats_available (body f) <? Py.len (passengers req)); [reflexivity|].
  rewrite len_map. fold (booking_for req f).
  destruct (Schemas.Booking_ok (booking_for req f)); reflexivity.
Qed.

Lemma run_create_booking_ok (req : BookingRequest) (db db' : Store) (resp : BookingResponse) :
  run (create_booking req) db = (Ok resp, db') ->
  exists fid f,
    Bson.ObjectId (flight_id req) = Some fid
    /\ find_one fid db = Some f
    /\ Py.len (passengers req) <= Schemas.seats_available (body f)
    /\ Schemas.Booking_ok (booking_for req f) = true
    /\ resp = {| booking_id := Bson.str (next_oid db); status := "confirmed" |}
    /\ db' = update_one fid (- Py.len (passengers req))
                        (snd (create_document (booking_for req f) db)).
Proof.
  rewrite create_booking_run.
  destruct (Bson.ObjectId (flight_id req)) as [fid|] eqn:Hoid; [|discriminate].
  destruct (find_one fid db) as [f|] eqn:Hfind; [|discriminate].
  destruct (Z.ltb_spec (Schemas.seats_available (body f)) (Py.len (passengers req)));
    [discriminate|].
  destruct (Schemas.Booking_ok (booking_for req f)) eqn:Hok; [|discriminate].
  intros [= <- <-]. exists fid, f. repeat split; auto.
Qed.

(** ** The failure path *)

(** C6: a call whose flight exists but has fewer seats left than the request
    has passengers ends with the 400 "Not enough seats available"
    (InsufficientCapacity); the store, and so [seats_available] and the
    booking collection, is what it was, and no write is among the operations
    of the call.  The call decides this in its first store operation. *)
Theorem C6_insufficient_capacity_leaves_store
    (req : BookingRequest) (db : Store) (fid : Bson.ObjectId_t) (f : Stored Schemas.Flight) :
  Bson.ObjectId (flight_id req) = Some fid ->
  find_one fid db = Some f ->
  Schemas.seats_available (body f) < Py.len (passengers req) ->
  run (create_booking req) db
    = (Err (mk_HTTPException 400 "Not enough seats available"), db)
  /\ step (create_booking req) db
    = (Raise (mk_HTTPException 400 "Not enough seats available"), db)
  /\ writes (trace (create_booking req) db) = [].
Proof.
  intros Hoid Hfind Hlt.
  apply Z.ltb_lt in Hlt.
  rewrite create_booking_run, create_booking_trace, Hoid, Hfind, Hlt.
  repeat split.
  unfold create_booking. rewrite Hoid. simpl. now rewrite Hfind, Hlt.
Qed.

Lemma C6_insufficient_capacity_witness :
  run (create_booking (Scenario.request Scenario.F_id 3)) (Scenario.db_F 2)
    = (Err (mk_HTTPException 400 "Not enough seats available"), Scenario.db_F 2)
  /\ step (create_booking (Scenario.request Scenario.F_id 3)) (Scenario.db_F 2)
    = (Raise (mk_HTTPException 400 "Not enough seats available"), Scenario.db_F 2)
  /\ writes (trace (create_booking (Scenario.request Scenario.F_id 3)) (Scenario.db_F 2)) = [].
Proof.
  apply (C6_insufficient_capacity_leaves_store
           (Scenario.request Scenario.F_id 3) (Scenario.db_F 2)
           Scenario.F_id (Scenario.F 2)); reflexivity.
Defined.

(** ** The success path *)

Lemma float_of_len {A : Type} (l : list A) :
  Py.float_of_int (Py.len l)
  = PrimFloat.of_uint63 (Uint63.of_Z (Z.of_nat (List.length l))).
Proof.
  unfold Py.float_of_int, Py.len.
  destruct (Z.leb_spec 0 (Z.of_nat (List.length l))); [reflexivity|lia].
Qed.

(** Every booking that [list_bookings] joins is in its answer, as stored. *)
Lemma join_all_In (db : Store) (items : list (Stored Schemas.Booking))
    (results : list Listing.BookingItem) (b : Stored Schemas.Booking) :
  Listing.join_all db items = Some results -> In b items ->
  exists item, In item results /\ Listing.booking item = to_str_id b.
Proof.
  revert results. induction items as [|a items IH]; intros results Hjoin Hin.
  - contradiction.
  - cbn [Listing.join_all] in Hjoin.
    destruct (Listing.join_flight db a) as [item|] eqn:Ha; [|discriminate].
    destruct (Listing.join_all db items) as [rest|]; [|discriminate].
    injection Hjoin as <-.
    destruct Hin as [->|Hin].
    + exists item. split; [now left|].
      unfold Listing.join_flight in Ha.
      destruct (String.eqb _ _); [now injection Ha as <-|].
      destruct (Bson.ObjectId _); [now injection Ha as <-|discriminate].
    + destruct (IH rest eq_refl Hin) as (it & Hit & Hb).
      exists it. split; [now right|exact Hb].
Qed.

(** C7: a call that succeeds read a flight [f] and appended one booking to the
    collection; its [total_amount] is the binary64 product of the price of
    [f], as the lookup of this call read it, and the number of passengers of
    the request converted to a float; its status is "confirmed", its
    passengers are those of the request, and the response names it.  The
    amount is a number held by the booking document: whatever becomes of the
    flights afterwards (their prices included), [list_bookings] on a store
    with these bookings, when it answers, lists the booking with that
    amount. *)
Theorem C7_total_amount_is_price_snapshot
    (req : BookingRequest) (db db' : Store) (resp : BookingResponse) :
  run (create_booking req) db = (Ok resp, db') ->
  exists fid f b,
    Bson.ObjectId (flight_id req) = Some fid
    /\ find_one fid db = Some f
    /\ booking db' = booking db ++ [mk_Doc (next_oid db) b]
    /\ Schemas.total_amount b
       = PrimFloat.mul (Schemas.price (body f))
           (PrimFloat.of_uint63 (Uint63.of_Z (Z.of_nat (List.length (passengers req)))))
    /\ Schemas.status b = "confirmed"
    /\ Schemas.passengers b = map Passenger_of (passengers req)
    /\ Schemas.flight_id b = flight_id req
    /\ resp = {| booking_id := Bson.str (next_oid db); status := "confirmed" |}
    /\ forall db2 items,
         booking db2 = booking db' ->
         Listing.list_bookings None db2 = Ok items ->
         exists item,
           In item items
           /\ Listing.booking item = mk_Doc (Bson.str (next_oid db)) b.
Proof.
  intros Hrun.
  destruct (run_create_booking_ok _ _ _ _ Hrun)
    as (fid & f & Hoid & Hfind & _ & _ & Hresp & Hdb).
  exists fid, f, (booking_for req f). subst db'.
  split; [exact Hoid|]. split; [exact Hfind|]. split; [reflexivity|].
  split; [cbn [booking_for Schemas.total_amount]; now rewrite float_of_len|].
  split; [reflexivity|]. split; [reflexivity|]. split; [reflexivity|].
  split; [exact Hresp|].
  intros db2 items Hb Hlist.
  unfold Listing.list_bookings, Listing.get_documents, find_many in Hlist.
  destruct (Listing.join_all db2 _) as [results|] eqn:Hjoin; [|discriminate].
  injection Hlist as <-.
  apply (join_all_In _ _ _ (mk_Doc (next_oid db) (booking_for req f))) in Hjoin.
  - exact Hjoin.
  - apply filter_In. split; [|reflexivity].
    rewrite Hb. cbn [update_one create_document snd booking].
    apply in_or_app. right. now left.
Qed.

Lemma C7_total_amount_is_price_snapshot_witness :
  exists b,
    booking (snd (run (create_booking (Scenario.request Scenario.F_id 3)) (Scenario.db_F 5)))
    = [mk_Doc 2%N b]
    /\ Schemas.total_amount b = 210%float
    /\ Schemas.status b = "confirmed"
    /\ forall db2 items,
         booking db2 = [mk_Doc 2%N b] ->
         Listing.list_bookings None db2 = Ok items ->
         exists item,
           In item items /\ Listing.booking item = mk_Doc (Bson.str 2%N) b.
Proof.
  destruct (C7_total_amount_is_price_snapshot
              (Scenario.request Scenario.F_id 3) (Scenario.db_F 5)
              (snd (run (create_booking (Scenario.request Scenario.F_id 3)) (Scenario.db_F 5)))
              {| booking_id := Bson.str 2%N; status := "confirmed" |})
    as (fid & f & b & Hoid & Hfind & Hb & Hamount & Hstatus & _ & _ & _ & Hlist).
  - vm_compute. reflexivity.
  - exists b.
    vm_compute in Hoid. injection Hoid as <-.
    vm_compute in Hfind. injection Hfind as <-.
    split; [exact Hb|].
    split; [rewrite Hamount; vm_compute; reflexivity|].
    split; [exact Hstatus|].
    intros db2 items H2. apply Hlist. rewrite Hb. exact H2.
Defined.

(** The scenario of the specification: 5 seats left at 70.0, three passengers. *)
Example scenario_three_passengers :
  let r := run (create_booking (Scenario.request Scenario.F_id 3)) (Scenario.db_F 5) in
  fst r = Ok {| booking_id := Bson.str 2%N; status := "confirmed" |}
  /\ map (fun d => Schemas.total_amount (body d)) (booking (snd r)) = [210%float]
  /\ seats_available_of Scenario.F_id (snd r) = 2.
Proof. vm_compute. repeat split; reflexivity. Qed.

(** ** The two writes of a call *)

(** C3, as stated, fails: in the call of the scenario (2 seats left, two
    passengers) the writes are the booking creation first and the seat
    decrement second; the decrement does not come first. *)
Lemma C3_booking_written_before_decrement :
  fst (run (create_booking (Scenario.request Scenario.F_id 2)) (Scenario.db_F 2))
    = Ok {| booking_id := Bson.str 2%N; status := "confirmed" |}
  /\ writes (trace (create_booking (Scenario.request Scenario.F_id 2)) (Scenario.db_F 2))
     = [OpCreateDocument (booking_for (Scenario.request Scenario.F_id 2) (Scenario.F 2));
        OpUpdateOne Scenario.F_id (-2)]
  /\ ~ (exists oid inc b,
          writes (trace (create_booking (Scenario.request Scenario.F_id 2)) (Scenario.db_F 2))
          = [OpUpdateOne oid inc; OpCreateDocument b]).
Proof.
  split; [vm_compute; reflexivity|].
  split; [vm_compute; reflexivity|].
  intros (oid & inc & b & H). vm_compute in H. discriminate H.
Qed.

(** C3, amended: a call either ends with an exception, the store untouched
    and no write among its operations, or it succeeds with exactly two
    writes, the booking creation first and the seat decrement of that flight
    second.  The gate is the comparison the service makes on the flight it
    read: when the flight has fewer seats than the request has passengers,
    the call is of the first kind. *)
Theorem C3_writes_paired_booking_first (req : BookingRequest) (db : Store) :
  (exists e,
     run (create_booking req) db = (Err e, db)
     /\ writes (trace (create_booking req) db) = [])
  \/ (exists fid f,
        Bson.ObjectId (flight_id req) = Some fid
        /\ find_one fid db = Some f
        /\ Py.len (passengers req) <= Schemas.seats_available (body f)
        /\ fst (run (create_booking req) db)
           = Ok {| booking_id := Bson.str (next_oid db); status := "confirmed" |}
        /\ writes (trace (create_booking req) db)
           = [OpCreateDocument (booking_for req f);
              OpUpdateOne fid (- Py.len (passengers req))]).
Proof.
  rewrite create_booking_run, create_booking_trace.
  destruct (Bson.ObjectId (flight_id req)) as [fid|] eqn:Hoid;
    [|left; eexists; split; reflexivity].
  destruct (find_one fid db) as [f|] eqn:Hfind;
    [|left; eexists; split; reflexivity].
  destruct (Z.ltb_spec (Schemas.seats_available (body f)) (Py.len (passengers req)));
    [left; eexists; split; reflexivity|].
  destruct (Schemas.Booking_ok (booking_for req f));
    [|left; eexists; split; reflexivity].
  right. exists fid, f. repeat split; auto.
Qed.

(** ** The seat check and the decrement *)

(** C2: the code makes the seat check and the decrement two store
    operations with the booking write between them, not one conditional
    update.  The call of the scenario (2 seats left, two passengers) reads
    the flight, writes the booking, and then issues an update of the flight
    found by its id alone.  With a second such request in flight, once both
    have read the counter and written their bookings and the first has taken
    its two seats, the counter is 0 and the second still takes two: the
    update subtracts them whatever the counter holds, and leaves -2. *)
Theorem C2_check_and_decrement_are_separate_operations :
  trace (create_booking (Scenario.request Scenario.F_id 2)) (Scenario.db_F 2)
    = [OpFindOne Scenario.F_id;
       OpCreateDocument (booking_for (Scenario.request Scenario.F_id 2) (Scenario.F 2));
       OpUpdateOne Scenario.F_id (-2)]
  /\ (let sys := exec [0; 1; 0; 1; 0]%nat
                   (start (Scenario.db_F 2)
                      [Scenario.request Scenario.F_id 2; Scenario.request Scenario.F_id 2]) in
      seats_available_of Scenario.F_id (store sys) = 0
      /\ map (pending Scenario.F_id) (workers sys) = [0; 2]
      /\ seats_available_of Scenario.F_id (store (sched_step sys 1)) = -2)
  /\ seats_available_of Scenario.F_id (update_one Scenario.F_id (-2) (Scenario.db_F 0)) = -2.
Proof. vm_compute. repeat split; reflexivity. Qed.

(** ** Requests without passengers *)

Lemma parse_passengers_refused (EmailStr : string -> option string)
    (l : list PassengerIn) (p : PassengerIn) :
  In p l -> EmailStr (email p) = None -> Http.parse_passengers EmailStr l = None.
Proof.
  induction l as [|a l IH]; intros Hin Hp; [contradiction|].
  cbn [Http.parse_passengers]. destruct Hin as [->|Hin].
  - unfold Http.parse_PassengerIn. now rewrite Hp.
  - rewrite (IH Hin Hp). now destruct (Http.parse_PassengerIn EmailStr a).
Qed.

(** C8, as stated, fails: a body with an empty passenger list, a valid
    contact address and the id of flight F (2 seats left) is accepted; the
    call succeeds and a confirmed booking without passengers is stored, under
    the address in its valid form; the seats are left as they were. *)
Lemma C8_empty_passengers_accepted :
  let raw := {| flight_id := Bson.str Scenario.F_id;
                contact_email := "Sara@EXAMPLE.COM";
                passengers := [] |} in
  let r := run (Http.post_bookings Scenario.normalize raw) (Scenario.db_F 2) in
  fst r = Ok {| booking_id := Bson.str 2%N; status := "confirmed" |}
  /\ map (fun d => (_id d, Schemas.contact_email (body d),
                    Schemas.passengers (body d), Schemas.status (body d)))
         (booking (snd r))
     = [(2%N, "Sara@example.com", [], "confirmed")]
  /\ seats_available_of Scenario.F_id (snd r) = 2.
Proof. vm_compute. repeat split; reflexivity. Qed.

(** C8, amended: the passenger list may be empty.  A body whose contact
    address, or the address of one of its passengers, is refused by the
    e-mail check is answered with the validation error, with no store
    operation and the store as it was.  A body without passengers whose
    contact address is valid is handed to the handler with that address in
    its valid form (which the check of [Booking] accepts and keeps); when
    its flight exists, has no negative seat count, and the amount (the price
    times 0.0) passes the check of [Booking], the call succeeds, stores a
    confirmed booking with no passengers under that address, and leaves
    [seats_available] as it was. *)
Theorem C8_empty_passenger_list_is_booked
    (EmailStr : string -> option string) (raw : BookingRequest) (db : Store) :
  (EmailStr (contact_email raw) = None
   \/ (exists p, In p (passengers raw) /\ EmailStr (email p) = None) ->
   run (Http.post_bookings EmailStr raw) db = (Err RequestValidationError, db)
   /\ trace (Http.post_bookings EmailStr raw) db = [])
  /\ (passengers raw = [] ->
      forall e fid f,
        EmailStr (contact_email raw) = Some e ->
        EmailStr e = Some e ->
        Bson.ObjectId (flight_id raw) = Some fid ->
        find_one fid db = Some f ->
        0 <= Schemas.seats_available (body f) ->
        PrimFloat.leb 0%float (PrimFloat.mul (Schemas.price (body f)) 0%float) = true ->
        exists b db',
          run (Http.post_bookings EmailStr raw) db
          = (Ok {| booking_id := Bson.str (next_oid db); status := "confirmed" |}, db')
          /\ booking db' = booking db ++ [mk_Doc (next_oid db) b]
          /\ Schemas.flight_id b = flight_id raw
          /\ Schemas.contact_email b = e
          /\ Schemas.passengers b = []
          /\ Schemas.status b = "confirmed"
          /\ seats_available_of fid db' = Schemas.seats_available (body f)).
Proof.
  split.
  - intros H. unfold Http.post_bookings, Http.parse_BookingRequest.
    destruct H as [H|(p & Hin & Hp)].
    + rewrite H. split; reflexivity.
    + rewrite (parse_passengers_refused EmailStr _ p Hin Hp).
      destruct (EmailStr (contact_email raw)); split; reflexivity.
  - intros Hnil e fid f He _ Hoid Hfind Hseats Hamount.
    unfold Http.post_bookings, Http.parse_BookingRequest.
    rewrite He, Hnil. cbn [Http.parse_passengers].
    set (req := {| flight_id := flight_id raw; contact_email := e; passengers := [] |}).
    assert (Hok : Schemas.Booking_ok (booking_for req f) = true) by exact Hamount.
    rewrite create_booking_run. cbn [flight_id passengers req]. fold req.
    rewrite Hoid, Hfind, Hok.
    apply Z.ltb_ge in Hseats. change (Py.len []) with 0. rewrite Hseats.
    exists (booking_for req f). eexists. split; [reflexivity|].
    split; [reflexivity|].
    split; [reflexivity|].
    split; [reflexivity|].
    split; [reflexivity|].
    split; [reflexivity|].
    rewrite seats_update_one, find_one_create_document, Hfind, N.eqb_refl. simpl. lia.
Qed.

Lemma C8_empty_passenger_list_is_booked_witness :
  (run (Http.post_bookings Scenario.normalize
          {| flight_id := Bson.str Scenario.F_id; contact_email := "sara";
             passengers := [Scenario.passenger] |})
       (Scenario.db_F 2)
   = (Err RequestValidationError, Scenario.db_F 2))
  /\ exists b db',
       run (Http.post_bookings Scenario.normalize
              {| flight_id := Bson.str Scenario.F_id; contact_email := "Sara@EXAMPLE.COM";
                 passengers := [] |})
           (Scenario.db_F 2)
       = (Ok {| booking_id := Bson.str 2%N; status := "confirmed" |}, db')
       /\ booking db' = [mk_Doc 2%N b]
       /\ Schemas.contact_email b = "Sara@example.com"
       /\ Schemas.passengers b = []
       /\ Schemas.status b = "confirmed"
       /\ seats_available_of Scenario.F_id db' = 2.
Proof.
  split.
  - apply (C8_empty_passenger_list_is_booked Scenario.normalize
             {| flight_id := Bson.str Scenario.F_id; contact_email := "sara";
                passengers := [Scenario.passenger] |}
             (Scenario.db_F 2)).
    left. reflexivity.
  - destruct (C8_empty_passenger_list_is_booked Scenario.normalize
                {| flight_id := Bson.str Scenario.F_id; contact_email := "Sara@EXAMPLE.COM";
                   passengers := [] |}
                (Scenario.db_F 2)) as [_ H].
    destruct (H eq_refl "Sara@example.com" Scenario.F_id (Scenario.F 2)
                eq_refl eq_refl eq_refl eq_refl ltac:(simpl; lia) eq_refl)
      as (b & db' & Hrun & Hb & _ & He & Hp & Hs & Hseats).
    exists b, db'. repeat split; assumption.
Defined.

(** A body with a passenger: the addresses reach the store in their valid
    form. *)
Example booking_stores_valid_addresses :
  let raw := {| flight_id := Bson.str Scenario.F_id;
                contact_email := "Sara@EXAMPLE.COM";
                passengers := [ {| first_name := "Sara"; last_name := "Ahmadi";
                                   email := "sara@Example.Com";
                                   document_number := None |} ] |} in
  map (fun d => (Schemas.contact_email (body d),
                 map Schemas.email (Schemas.passengers (body d))))
      (booking (snd (run (Http.post_bookings Scenario.normalize raw) (Scenario.db_F 2))))
  = [("Sara@example.com", ["sara@example.com"])].
Proof. vm_compute. reflexivity. Qed.

(** ** Flight search *)

Lemma to_us_of_us (u : Z) : Datetime.to_us (Datetime.of_us u) = u.
Proof.
  unfold Datetime.to_us, Datetime.of_us; simpl.
  Z.to_euclidean_division_equations. lia.
Qed.

Lemma to_us_add (t : Datetime.datetime) (delta : Z) :
  Datetime.to_us (Datetime.add t delta) = Datetime.to_us t + delta.
Proof. unfold Datetime.add. apply to_us_of_us. Qed.

Lemma insert_by_departure_perm (d : Stored Schemas.Flight) (l : list (Stored Schemas.Flight)) :
  Permutation (insert_by_departure d l) (d :: l).
Proof.
  induction l as [|e l IH]; simpl.
  - apply Permutation_refl.
  - destruct (Datetime.leb _ _).
    + apply Permutation_refl.
    + apply perm_trans with (e :: d :: l).
      * now apply perm_skip.
      * apply perm_swap.
Qed.

Lemma sort_by_departure_perm (l : list (Stored Schemas.Flight)) :
  Permutation (sort_by_departure l) l.
Proof.
  induction l as [|d l IH]; simpl.
  - apply perm_nil.
  - apply perm_trans with (d :: sort_by_departure l).
    + apply insert_by_departure_perm.
    + now apply perm_skip.
Qed.

Lemma insert_by_departure_sorted (d : Stored Schemas.Flight) (l : list (Stored Schemas.Flight)) :
  StronglySorted departs_le l -> StronglySorted departs_le (insert_by_departure d l).
Proof.
  induction l as [|e l IH]; simpl; intros Hs.
  - constructor; [constructor|constructor].
  - inversion Hs as [|? ? Hl Hall]; subst.
    destruct (Datetime.leb _ _) eqn:Hle; unfold Datetime.leb in Hle.
    + apply Z.leb_le in Hle. constructor; [exact Hs|].
      constructor; [exact Hle|].
      eapply Forall_impl; [|exact Hall].
      intros x Hx. unfold departs_le in *. lia.
    + apply Z.leb_gt in Hle. constructor; [now apply IH|].
      apply (Permutation_Forall (Permutation_sym (insert_by_departure_perm d l))).
      constructor; [unfold departs_le; lia | exact Hall].
Qed.

Lemma sort_by_departure_sorted (l : list (Stored Schemas.Flight)) :
  StronglySorted departs_le (sort_by_departure l).
Proof.
  induction l as [|d l IH]; simpl.
  - constructor.
  - now apply insert_by_departure_sorted.
Qed.

Lemma search_filter_spec (q : SearchQuery) (f : Schemas.Flight) :
  search_filter q f = true <->
  Schemas.origin f = Py.upper (origin q)
  /\ Schemas.destination f = Py.upper (destination q)
  /\ Datetime.to_us (Datetime.replace_hour (date q) 0)
     <= Datetime.to_us (Schemas.departure_time f)
     < Datetime.to_us (Datetime.replace_hour (date q) 0) + 86400000000
  /\ 0 < Schemas.seats_available f.
Proof.
  unfold search_filter, Datetime.leb, Datetime.ltb.
  rewrite !andb_true_iff, !String.eqb_eq, Z.leb_le, !Z.ltb_lt, to_us_add.
  change (Datetime.timedelta 1 0 0) with 86400000000.
  tauto.
Qed.

(** *** The route on every query *)

Lemma search_window_some (q : Http.SearchQuery) :
  Facts.day_has_both_ends (Http.date q) ->
  Http.search_window q
  = Some (Facts.midnight_utc (Http.date q),
          Facts.midnight_utc (Http.date q) + 86400000000).
Proof.
  unfold Facts.day_has_both_ends, Facts.midnight_utc, Http.search_window.
  destruct (Http.date q) as [t tz]. cbn [Datetime.fields Datetime.utcoffset].
  intros (Hday & Hlo & Hhi).
  assert (Hstart : Datetime.to_us (Datetime.replace_hour t 0)
                   = Datetime.ordinal t * 86400000000).
  { unfold Datetime.to_us, Datetime.replace_hour.
    cbn [Datetime.ordinal Datetime.hour Datetime.minute Datetime.second
         Datetime.microsecond]. lia. }
  unfold Datetime.plus. rewrite Hstart.
  change (Datetime.timedelta 1 0 0) with 86400000000.
  assert (Hrep : forall u, 86400000000 <= u < 3652060 * 86400000000 ->
                           Datetime.representable u = true).
  { intros u Hu. unfold Datetime.representable, Datetime.MAXORDINAL.
    apply andb_true_iff. split; [apply Z.leb_le|apply Z.ltb_lt]; lia. }
  rewrite Hrep by lia.
  unfold Datetime.to_utc. cbn [Datetime.fields Datetime.utcoffset].
  rewrite to_us_of_us, Hstart.
  destruct tz as [m|].
  - rewrite !Hrep by lia. f_equal. f_equal. lia.
  - f_equal. f_equal; lia.
Qed.

Lemma http_search_filter_wanted (unicode_upper : string -> string) (q : Http.SearchQuery)
    (lo : Z) (f : Schemas.Flight) :
  Http.search_filter unicode_upper q (lo, lo + 86400000000) f
  = Facts.wanted (Py.str_upper unicode_upper (Http.origin q))
                 (Py.str_upper unicode_upper (Http.destination q)) lo f.
Proof. reflexivity. Qed.

Lemma wanted_spec (o d : string) (lo : Z) (f : Schemas.Flight) :
  Facts.wanted o d lo f = true <->
  Schemas.origin f = o
  /\ Schemas.destination f = d
  /\ lo <= Datetime.to_us (Schemas.departure_time f) < lo + 86400000000
  /\ 0 < Schemas.seats_available f.
Proof.
  unfold Facts.wanted.
  rewrite !andb_true_iff, !String.eqb_eq, Z.leb_le, !Z.ltb_lt. tauto.
Qed.

(** C9, as stated, fails: a flight from IKA to MHD that leaves on 9999-12-31
    with seats left is stored, and the search for that route and day does
    not return it: the end of the day is no date, and the request is
    answered with a server error. *)
Lemma C9_search_fails_on_the_last_day :
  let q := Http.mk_SearchQuery "IKA" "MHD"
             (Datetime.mk_zoned (Datetime.mk_datetime Scenario.last_day 0 0 0 0) None) in
  In Scenario.Z_flight (flight Scenario.db_last_day)
  /\ Facts.wanted "IKA" "MHD" (Facts.midnight_utc (Http.date q)) (body Scenario.Z_flight) = true
  /\ Http.post_flights_search Scenario.sharp_s_upper q Scenario.db_last_day
     = Err InternalServerError.
Proof.
  split; [left; reflexivity|]. split; vm_compute; reflexivity.
Qed.

(** C9, amended: for a query whose day has both its ends (a date before
    9999-12-31; with an offset, a day that begins and ends within the dates
    in UTC), the answer is the [to_str_id] image of a list that holds exactly
    the stored flights (each as often as it is stored) whose origin and
    destination are the codes of the query in upper case, whose departure
    lies in the day of the query, from its midnight to the next midnight
    excluded, and which have a seat left; the list is in ascending order of
    departure. *)
Theorem C9_search_returns_matching_flights_sorted
    (unicode_upper : string -> string) (q : Http.SearchQuery) (db : Store) :
  Facts.day_has_both_ends (Http.date q) ->
  exists l,
    Http.search_flights unicode_upper q db = Ok (map to_str_id l)
    /\ Permutation l
         (filter (fun d => Facts.wanted (Py.str_upper unicode_upper (Http.origin q))
                                        (Py.str_upper unicode_upper (Http.destination q))
                                        (Facts.midnight_utc (Http.date q)) (body d))
                 (flight db))
    /\ (forall d,
          In d l <->
          In d (flight db)
          /\ Schemas.origin (body d) = Py.str_upper unicode_upper (Http.origin q)
          /\ Schemas.destination (body d) = Py.str_upper unicode_upper (Http.destination q)
          /\ Facts.midnight_utc (Http.date q)
             <= Datetime.to_us (Schemas.departure_time (body d))
             < Facts.midnight_utc (Http.date q) + 86400000000
          /\ 0 < Schemas.seats_available (body d))
    /\ StronglySorted departs_le l.
Proof.
  intros Hday.
  set (lo := Facts.midnight_utc (Http.date q)).
  set (flt := fun f => Facts.wanted (Py.str_upper unicode_upper (Http.origin q))
                         (Py.str_upper unicode_upper (Http.destination q)) lo f).
  exists (sort_by_departure (find_many flt (flight db))).
  split.
  { unfold Http.search_flights. rewrite (search_window_some q Hday). reflexivity. }
  split; [apply sort_by_departure_perm|].
  split; [|apply sort_by_departure_sorted].
  intros d. unfold find_many. split.
  - intros Hin.
    apply (Permutation_in _ (sort_by_departure_perm _)) in Hin.
    apply filter_In in Hin. destruct Hin as [Hin Hf].
    apply wanted_spec in Hf. tauto.
  - intros (Hin & Hf).
    apply (Permutation_in _ (Permutation_sym (sort_by_departure_perm _))).
    apply filter_In. split; [exact Hin|].
    apply wanted_spec. exact Hf.
Qed.

Lemma C9_search_returns_matching_flights_sorted_witness :
  exists l,
    Http.search_flights Scenario.sharp_s_upper
      (Http.mk_SearchQuery "ika" "mhd"
         (Datetime.mk_zoned (Datetime.mk_datetime 739001 15 30 0 0) None))
      Scenario.seeded0
    = Ok (map to_str_id l)
    /\ (forall d,
          In d l <->
          In d (flight Scenario.seeded0)
          /\ Schemas.origin (body d) = "IKA"
          /\ Schemas.destination (body d) = "MHD"
          /\ 739001 * 86400000000
             <= Datetime.to_us (Schemas.departure_time (body d))
             < 739002 * 86400000000
          /\ 0 < Schemas.seats_available (body d))
    /\ StronglySorted departs_le l.
Proof.
  destruct (C9_search_returns_matching_flights_sorted Scenario.sharp_s_upper
              (Http.mk_SearchQuery "ika" "mhd"
                 (Datetime.mk_zoned (Datetime.mk_datetime 739001 15 30 0 0) None))
              Scenario.seeded0)
    as (l & Hl & _ & Hin & Hsorted).
  - vm_compute. repeat split; discriminate.
  - exists l. split; [exact Hl|]. split; [exact Hin|exact Hsorted].
Defined.

(** The seeded flights from IKA to MHD on the second day, asked in lower
    case and with an offset of three and a half hours: the route answers
    with the one flight of that day. *)
Example route_search_seeded_second_day :
  Http.post_flights_search Scenario.sharp_s_upper
    (Http.mk_SearchQuery "ika" "mhd"
       (Datetime.mk_zoned (Datetime.mk_datetime 739001 15 30 0 0) (Some 210)))
    Scenario.seeded0
  = Ok [to_str_id (Scenario.seeded_flight 9%N)].
Proof. vm_compute. reflexivity. Qed.

(** The seeded flights from IKA to MHD on the second day, asked in lower case. *)
Example search_seeded_second_day :
  map (fun d => (_id d, Schemas.flight_number (body d)))
      (search_flights (mk_SearchQuery "ika" "mhd" (Datetime.mk_datetime 739001 15 30 0 0))
                      Scenario.seeded0)
  = [("000000000000000000000009", "W5-109")].
Proof. vm_compute. reflexivity. Qed.

(** *** Codes in upper and lower case *)

Lemma same_letter_spec (a b : ascii) :
  Facts.same_letter a b = true ->
  a = b
  \/ (Py.is_ascii_char a = true /\ Py.is_ascii_char b = true
      /\ Py.upper_ascii a = Py.upper_ascii b).
Proof.
  unfold Facts.same_letter. intros H. apply orb_true_iff in H. destruct H as [H|H].
  - left. now apply Ascii.eqb_eq.
  - right. apply existsb_exists in H. destruct H as ([x y] & Hin & H).
    cbn [fst snd] in H.
    assert (Hxy : (a = x /\ b = y) \/ (a = y /\ b = x)).
    { apply orb_true_iff in H. destruct H as [H|H];
        apply andb_true_iff in H; destruct H as [H1 H2];
        apply Ascii.eqb_eq in H1, H2; tauto. }
    clear H. unfold Facts.letters in Hin. simpl in Hin.
    repeat (destruct Hin as [Hin|Hin];
            [injection Hin as <- <-;
             destruct Hxy as [[-> ->]|[-> ->]]; repeat split; reflexivity|]).
    contradiction.
Qed.

Lemma is_ascii_not_continuation (c : ascii) :
  Py.is_ascii_char c = true -> Py.is_continuation c = false.
Proof.
  unfold Py.is_ascii_char, Py.is_continuation. intros H.
  apply Nat.ltb_lt in H. apply andb_false_iff. left. apply Nat.leb_gt. exact H.
Qed.

Lemma same_ignoring_case_upper (unicode_upper : string -> string) (s t : string) :
  Facts.same_ignoring_case s t = true ->
  forall run, Py.str_upper_from unicode_upper run s = Py.str_upper_from unicode_upper run t.
Proof.
  revert t. induction s as [|a s IH]; intros [|b t] H run; try discriminate H.
  - reflexivity.
  - cbn [Facts.same_ignoring_case] in H. apply andb_true_iff in H. destruct H as [Hab Hst].
    cbn [Py.str_upper_from].
    destruct (same_letter_spec a b Hab) as [<-|(Ha & Hb & Hu)].
    + destruct (Py.is_ascii_char a); now rewrite (IH t Hst).
    + rewrite Ha, Hb, Hu. now rewrite (IH t Hst).
Qed.

Lemma same_ignoring_case_len (s t : string) :
  Facts.same_ignoring_case s t = true -> Py.str_len s = Py.str_len t.
Proof.
  revert t. induction s as [|a s IH]; intros [|b t] H; try discriminate H.
  - reflexivity.
  - cbn [Facts.same_ignoring_case] in H. apply andb_true_iff in H. destruct H as [Hab Hst].
    cbn [Py.str_len]. rewrite (IH t Hst).
    destruct (same_letter_spec a b Hab) as [<-|(Ha & Hb & _)]; [reflexivity|].
    now rewrite (is_ascii_not_continuation a Ha), (is_ascii_not_continuation b Hb).
Qed.




(** The two queries of that instance both get the flight of the second day. *)
Example route_search_in_either_case :
  map (fun codes =>
         Http.post_flights_search Scenario.sharp_s_upper
           (Http.mk_SearchQuery (fst codes) (snd codes)
              (Datetime.mk_zoned (Datetime.mk_datetime 739001 15 30 0 0) None))
           Scenario.seeded0)
      [("ika", "Mhd"); ("IKA", "MHD")]
  = [Ok [to_str_id (Scenario.seeded_flight 9%N)];
     Ok [to_str_id (Scenario.seeded_flight 9%N)]].
Proof. vm_compute. reflexivity. Qed.

(** *** The handler of [Main] and the route *)

Lemma str_upper_isascii (unicode_upper : string -> string) (s : string) :
  Py.isascii s = true -> Py.str_upper unicode_upper s = Py.upper s.
Proof.
  unfold Py.str_upper. induction s as [|c s IH]; cbn [Py.isascii Py.str_upper_from Py.upper].
  - reflexivity.
  - intros H. apply andb_true_iff in H. destruct H as [Hc Hs].
    rewrite Hc. cbn [Py.flush String.append]. now rewrite (IH Hs).
Qed.

(** On a query with codes of ASCII characters and a naive date before
    9999-12-31, the route's handler answers with what [search_flights] of
    [Main] returns. *)
Lemma search_flights_naive (unicode_upper : string -> string) (q : SearchQuery) (db : Store) :
  Py.isascii (origin q) = true ->
  Py.isascii (destination q) = true ->
  1 <= Datetime.ordinal (date q) < 3652059 ->
  Http.search_flights unicode_upper (Http.naive q) db = Ok (search_flights q db).
Proof.
  intros Ho Hd Hday.
  assert (Hmid : Facts.midnight_utc (Http.date (Http.naive q))
                 = Datetime.to_us (Datetime.replace_hour (date q) 0)).
  { unfold Facts.midnight_utc, Http.naive, Datetime.to_us, Datetime.replace_hour.
    cbn [Http.date Datetime.fields Datetime.utcoffset Datetime.ordinal Datetime.hour
         Datetime.minute Datetime.second Datetime.microsecond]. lia. }
  assert (Hends : Facts.day_has_both_ends (Http.date (Http.naive q))).
  { unfold Facts.day_has_both_ends. rewrite Hmid.
    unfold Http.naive, Datetime.to_us, Datetime.replace_hour.
    cbn [Http.date Datetime.fields Datetime.ordinal Datetime.hour
         Datetime.minute Datetime.second Datetime.microsecond]. lia. }
  unfold Http.search_flights, search_flights.
  rewrite (search_window_some _ Hends), Hmid.
  unfold find_many. f_equal. f_equal. f_equal.
  apply filter_ext. intros d.
  unfold Http.search_filter, search_filter, Datetime.leb, Datetime.ltb.
  cbn [fst snd Http.naive Http.origin Http.destination].
  rewrite (str_upper_isascii _ _ Ho), (str_upper_isascii _ _ Hd), to_us_add.
  reflexivity.
Qed.

(** ** Requests in flight together: what every interleaving keeps *)

Lemma keeps_flights_refl (db : Store) : keeps_flights db db.
Proof. intros oid f H. exists f. split; [exact H|]. split; [reflexivity|lia]. Qed.

Lemma keeps_flights_trans (a b c : Store) :
  keeps_flights a b -> keeps_flights b c -> keeps_flights a c.
Proof.
  intros Hab Hbc oid f H.
  destruct (Hab _ _ H) as (f1 & H1 & E1 & L1).
  destruct (Hbc _ _ H1) as (f2 & H2 & E2 & L2).
  exists f2. split; [exact H2|]. split; [congruence|lia].
Qed.

Lemma keeps_flights_create_document (b : Schemas.Booking) (db : Store) :
  keeps_flights db (snd (create_document b db)).
Proof. intros oid f H. exists f. split; [exact H|]. split; [reflexivity|lia]. Qed.

Lemma keeps_flights_update_one (oid : Bson.ObjectId_t) (k : Z) (db : Store) :
  k <= 0 -> keeps_flights db (update_one oid k db).
Proof.
  intros Hk o f H. rewrite find_one_update_one, H.
  destruct (o =? oid)%N; eexists; (split; [reflexivity|]);
    (split; [reflexivity|]); cbn [inc_seats body Schemas.seats_available]; lia.
Qed.

Lemma keeps_flights_found (db db' : Store) (oid : Bson.ObjectId_t) :
  keeps_flights db db' -> find_one oid db <> None -> find_one oid db' <> None.
Proof.
  intros Hk Hf. destruct (find_one oid db) as [f|] eqn:E; [|congruence].
  destruct (Hk _ _ E) as (f' & E' & _ & _). congruence.
Qed.

Lemma worker_at_keeps (db db' : Store) (p : Prog BookingResponse) :
  keeps_flights db db' -> worker_at db p -> worker_at db' p.
Proof.
  intros Hk Hw. destruct Hw as [req|p Hp|b k oid Ho Hs Hf Hk'|oid inc k Hf Hi Hk'].
  - apply at_start.
  - now apply at_end.
  - apply at_write with (oid := oid); auto. eapply keeps_flights_found; eauto.
  - apply at_decrement; auto. eapply keeps_flights_found; eauto.
Qed.

Lemma finished_step {A : Type} (p : Prog A) (db : Store) :
  finished p = true -> step p db = (p, db).
Proof. destruct p; simpl; intros H; try discriminate; reflexivity. Qed.

Lemma finished_pending (oid : Bson.ObjectId_t) (p : Prog BookingResponse) :
  finished p = true -> pending oid p = 0.
Proof. destruct p; simpl; intros H; try discriminate; reflexivity. Qed.

Lemma pending_create_booking (oid : Bson.ObjectId_t) (req : BookingRequest) :
  pending oid (create_booking req) = 0.
Proof. unfold create_booking. destruct (Bson.ObjectId (flight_id req)); reflexivity. Qed.

(** The lookup of a worker that has not started: the store is not written,
    and the worker either ends or stands before its booking write. *)
Lemma step_at_start (req : BookingRequest) (db db' : Store) (p' : Prog BookingResponse) :
  step (create_booking req) db = (p', db') ->
  db' = db /\ worker_at db p' /\ forall oid, pending oid p' = 0.
Proof.
  unfold create_booking.
  destruct (Bson.ObjectId (flight_id req)) as [fid|] eqn:Hoid; simpl.
  2:{ intros [= <- <-]. split; [reflexivity|]. split; [now apply at_end|reflexivity]. }
  destruct (find_one fid db) as [f|] eqn:Hfind.
  2:{ intros [= <- <-]. split; [reflexivity|]. split; [now apply at_end|reflexivity]. }
  destruct (Schemas.seats_available (body f) <? Py.len (passengers req)).
  { intros [= <- <-]. split; [reflexivity|]. split; [now apply at_end|reflexivity]. }
  destruct (Schemas.Booking_ok _).
  2:{ intros [= <- <-]. split; [reflexivity|]. split; [now apply at_end|reflexivity]. }
  intros [= <- <-]. split; [reflexivity|]. split; [|reflexivity].
  apply at_write with (oid := fid); simpl; auto; [congruence|].
  intros bid. eexists. split; [reflexivity|]. intros u. reflexivity.
Qed.

(** One operation of one worker: the worker is again at a place of
    [create_booking], the flights are kept, and for every flight what the
    operation adds to the bookings or takes from the seats is matched by the
    change of what the worker still has to take. *)
Lemma step_worker (db db' : Store) (p p' : Prog BookingResponse) :
  worker_at db p ->
  step p db = (p', db') ->
  worker_at db' p'
  /\ keeps_flights db db'
  /\ forall oid,
       seats_available_of oid db' + booked oid db' - pending oid p'
       = seats_available_of oid db + booked oid db - pending oid p.
Proof.
  intros Hw Hstep.
  destruct Hw as [req|p Hp|b k oid Ho Hs Hf Hk|oid inc k Hf Hinc Hk].
  - (* before the lookup *)
    destruct (step_at_start _ _ _ _ Hstep) as (-> & Hw' & Hp').
    split; [exact Hw'|]. split; [apply keeps_flights_refl|].
    intros oid. now rewrite pending_create_booking, Hp'.
  - (* at its end *)
    rewrite (finished_step _ _ Hp) in Hstep. injection Hstep as <- <-.
    split; [now apply at_end|]. split; [apply keeps_flights_refl|]. reflexivity.
  - (* the booking write *)
    simpl in Hstep. injection Hstep as <- <-.
    destruct (Hk (Bson.str (next_oid db))) as (k' & Hkb & Hfin).
    rewrite Hkb.
    split.
    { apply at_decrement; [exact Hf| |exact Hfin].
      pose proof (len_nonneg (Schemas.passengers b)). lia. }
    split; [apply (keeps_flights_create_document b db)|].
    intros o.
    change {| airport := airport db; flight := flight db;
              booking := booking db ++ [mk_Doc (next_oid db) b];
              next_oid := N.succ (next_oid db) |}
      with (snd (create_document b db)).
    rewrite booked_create_document.
    unfold seats_available_of. rewrite find_one_create_document.
    unfold references. rewrite Ho, Hs. simpl.
    destruct (oid =? o)%N; simpl; lia.
  - (* the decrement *)
    simpl in Hstep. injection Hstep as <- <-.
    split; [apply at_end, Hk|].
    split; [now apply keeps_flights_update_one|].
    intros o. rewrite (finished_pending _ _ (Hk tt)), seats_update_one.
    unfold seats_available_of, pending.
    change (booked o (update_one oid inc db)) with (booked o db).
    rewrite (N.eqb_sym oid o).
    destruct (N.eqb_spec o oid) as [->|Hne].
    + destruct (find_one oid db); [lia|congruence].
    + destruct (find_one o db); lia.
Qed.

Lemma pending_all_set_nth (oid : Bson.ObjectId_t) (ws : list (Prog BookingResponse))
    (i : nat) (p p' : Prog BookingResponse) :
  nth_error ws i = Some p ->
  pending_all oid (set_nth i p' ws) = pending_all oid ws - pending oid p + pending oid p'.
Proof.
  revert i. induction ws as [|w ws IH]; intros [|i] H; simpl in *; try discriminate.
  - injection H as ->. lia.
  - rewrite (IH _ H). lia.
Qed.

Lemma Forall_set_nth {A : Type} (P : A -> Prop) (l : list A) (i : nat) (x : A) :
  Forall P l -> P x -> Forall P (set_nth i x l).
Proof.
  revert i. induction l as [|y l IH]; intros i Hl Hx; simpl.
  - destruct i; constructor.
  - inversion Hl; subst. destruct i; constructor; auto.
Qed.

Lemma pending_all_finished (oid : Bson.ObjectId_t) (ws : list (Prog BookingResponse)) :
  forallb finished ws = true -> pending_all oid ws = 0.
Proof.
  induction ws as [|w ws IH]; simpl; intros H.
  - reflexivity.
  - apply andb_true_iff in H. destruct H as [Hw Hws].
    rewrite (finished_pending _ _ Hw), (IH Hws). reflexivity.
Qed.

Lemma pending_all_start (oid : Bson.ObjectId_t) (reqs : list BookingRequest) :
  pending_all oid (map create_booking reqs) = 0.
Proof.
  induction reqs as [|r reqs IH]; simpl.
  - reflexivity.
  - now rewrite pending_create_booking, IH.
Qed.

(** One step of the schedule. *)
Lemma sched_step_keeps (sys : System) (i : nat) :
  Forall (worker_at (store sys)) (workers sys) ->
  Forall (worker_at (store (sched_step sys i))) (workers (sched_step sys i))
  /\ keeps_flights (store sys) (store (sched_step sys i))
  /\ forall oid, accounted oid (sched_step sys i) = accounted oid sys.
Proof.
  intros Hall. unfold sched_step.
  destruct (nth_error (workers sys) i) as [p|] eqn:Hi.
  2:{ split; [exact Hall|]. split; [apply keeps_flights_refl|reflexivity]. }
  destruct (step p (store sys)) as [p' db'] eqn:Hstep.
  assert (Hp : worker_at (store sys) p).
  { rewrite Forall_forall in Hall. apply Hall. eapply nth_error_In; eauto. }
  destruct (step_worker _ _ _ _ Hp Hstep) as (Hp' & Hk & Hacc).
  simpl. split.
  - apply Forall_set_nth; [|exact Hp'].
    eapply Forall_impl; [|exact Hall]. intros w. now apply worker_at_keeps.
  - split; [exact Hk|]. intros oid. unfold accounted; simpl.
    rewrite (pending_all_set_nth _ _ _ _ _ Hi). specialize (Hacc oid). lia.
Qed.

(** Every schedule. *)
Lemma exec_keeps (schedule : list nat) (sys : System) :
  Forall (worker_at (store sys)) (workers sys) ->
  Forall (worker_at (store (exec schedule sys))) (workers (exec schedule sys))
  /\ keeps_flights (store sys) (store (exec schedule sys))
  /\ forall oid, accounted oid (exec schedule sys) = accounted oid sys.
Proof.
  revert sys. induction schedule as [|i schedule IH]; intros sys Hall; simpl.
  - split; [exact Hall|]. split; [apply keeps_flights_refl|reflexivity].
  - destruct (sched_step_keeps sys i Hall) as (H1 & H2 & H3).
    destruct (IH _ H1) as (H4 & H5 & H6).
    split; [exact H4|]. split; [eapply keeps_flights_trans; eauto|].
    intros oid. now rewrite H6, H3.
Qed.

Lemma start_workers (db : Store) (reqs : list BookingRequest) :
  Forall (worker_at db) (workers (start db reqs)).
Proof.
  simpl. apply Forall_forall. intros w Hw.
  apply in_map_iff in Hw. destruct Hw as (r & <- & _). apply at_start.
Qed.

Lemma accounted_start (oid : Bson.ObjectId_t) (db : Store) (reqs : list BookingRequest) :
  accounted oid (start db reqs) = seats_available_of oid db + booked oid db.
Proof. unfold accounted; simpl. rewrite pending_all_start. lia. Qed.

(** From any store and any requests, under any schedule: the accounted seats
    of a flight are what they were, and when no call is in progress they are
    the seats left plus the seats of the confirmed bookings. *)
Lemma seats_accounted (db : Store) (reqs : list BookingRequest) (schedule : list nat)
    (oid : Bson.ObjectId_t) :
  let sys := exec schedule (start db reqs) in
  accounted oid sys = seats_available_of oid db + booked oid db
  /\ (quiescent sys = true ->
      seats_available_of oid (store sys) + booked oid (store sys)
      = seats_available_of oid db + booked oid db).
Proof.
  intros sys.
  destruct (exec_keeps schedule (start db reqs) (start_workers db reqs)) as (_ & _ & Hacc).
  fold sys in Hacc. specialize (Hacc oid). rewrite accounted_start in Hacc.
  split; [exact Hacc|].
  intros Hq. unfold accounted in Hacc.
  unfold quiescent in Hq. rewrite (pending_all_finished _ _ Hq) in Hacc. lia.
Qed.

(** ** The seeded store *)

Lemma with_ids_body {A : Type} (next : N) (l : list A) :
  map body (with_ids next l) = l.
Proof.
  revert next. induction l as [|a l IH]; intros next; simpl.
  - reflexivity.
  - now rewrite IH.
Qed.

Lemma seed_flight_seats (base : Datetime.datetime) (d : Z) (r : string * string)
    (flights : list Schemas.Flight) (f : Schemas.Flight) :
  0 <= d < 5 ->
  seed_flight base d r flights = Some f ->
  seeded_seats f.
Proof.
  intros Hd. unfold seed_flight.
  destruct (price_base_get r) as [pb|]; [|discriminate].
  destruct (Schemas.Flight_ok _); [|discriminate].
  intros [= <-]. split; [reflexivity|]. exists d. split; [exact Hd|reflexivity].
Qed.

Lemma seed_route_seats (base : Datetime.datetime) (d : Z)
    (acc : option (list Schemas.Flight)) (r : string * string) :
  0 <= d < 5 -> all_seeded acc -> all_seeded (seed_route base d acc r).
Proof.
  intros Hd Hacc. destruct acc as [flights|]; simpl; [|exact I].
  destruct (seed_flight base d r flights) as [f|] eqn:Hf; simpl; [|exact I].
  apply Forall_app. split; [exact Hacc|].
  constructor; [|constructor]. eapply seed_flight_seats; eauto.
Qed.

Lemma seed_routes_seats (base : Datetime.datetime) (d : Z) (rs : list (string * string))
    (acc : option (list Schemas.Flight)) :
  0 <= d < 5 -> all_seeded acc -> all_seeded (fold_left (seed_route base d) rs acc).
Proof.
  intros Hd. revert acc. induction rs as [|r rs IH]; intros acc Hacc; simpl.
  - exact Hacc.
  - apply IH. now apply seed_route_seats.
Qed.

Lemma seed_days_seats (base : Datetime.datetime) (ds : list Z)
    (acc : option (list Schemas.Flight)) :
  Forall (fun d => 0 <= d < 5) ds ->
  all_seeded acc ->
  all_seeded (fold_left (fun acc d => fold_left (seed_route base d) routes acc) ds acc).
Proof.
  intros Hds. revert acc. induction Hds as [|d ds Hd Hds IH]; intros acc Hacc.
  - exact Hacc.
  - cbn [fold_left]. apply IH. now apply seed_routes_seats.
Qed.

Lemma seed_flights_seats (base : Datetime.datetime) (flights : list Schemas.Flight) :
  seed_flights base = Some flights -> Forall seeded_seats flights.
Proof.
  intros H.
  assert (Hall : all_seeded (seed_flights base)).
  { unfold seed_flights. apply seed_days_seats.
    - change (Py.range 0 5) with [0; 1; 2; 3; 4].
      repeat constructor; lia.
    - constructor. }
  rewrite H in Hall. exact Hall.
Qed.

(** After [startup_event] on an empty database there is no booking, and every
    flight has 120 seats in all and [120 - 3 * d] left, [d] its day. *)
Lemma startup_event_on_empty (utcnow : Datetime.datetime) (db0 : Store) :
  startup_event utcnow (Some Database.empty) = Some db0 ->
  booking db0 = [] /\ Forall (fun doc => seeded_seats (body doc)) (flight db0).
Proof.
  unfold startup_event, ensure_seed.
  change (count_documents (airport Database.empty) =? 0) with true.
  cbv iota.
  change (count_documents (flight (insert_many_airport AIRPORTS_SAMPLE Database.empty)) =? 0)
    with true.
  cbv iota.
  destruct (seed_flights (Datetime.replace_hour utcnow 6)) as [flights|] eqn:Hseed.
  2:{ intros [= <-]. split; [reflexivity|constructor]. }
  apply seed_flights_seats in Hseed.
  destruct flights as [|f flights].
  { intros [= <-]. split; [reflexivity|constructor]. }
  intros [= <-]. split; [reflexivity|].
  unfold insert_many_flight. cbn [flight].
  change (flight (insert_many_airport AIRPORTS_SAMPLE Database.empty)) with
    (@nil (Stored Schemas.Flight)).
  cbn [app]. apply Forall_map.
  rewrite with_ids_body. exact Hseed.
Qed.

Lemma find_one_In (oid : Bson.ObjectId_t) (db : Store) (f : Stored Schemas.Flight) :
  find_one oid db = Some f -> In f (flight db) /\ _id f = oid.
Proof.
  unfold find_one. intros H. apply find_some in H.
  destruct H as [Hin Heq]. apply N.eqb_eq in Heq. now split.
Qed.

(** ** Seat conservation *)

(** C4, as stated, fails.  Right after seeding, the flight of the second day
    with id 9 has 117 seats left, no booking, and 120 seats in all.  And on
    the flight with id 5 (120 of 120 seats left), a call that has written
    its booking for two passengers and not yet its decrement leaves 120 seats
    left and 2 booked. *)
Lemma C4_seeded_store_does_not_conserve :
  ~ (forall doc, In doc (flight Scenario.seeded0) ->
       Schemas.seats_available (body doc) + booked (_id doc) Scenario.seeded0
       = Schemas.seats_total (body doc))
  /\ (let sys := exec [0; 0]%nat (start Scenario.seeded0 [Scenario.request 5%N 2]) in
      seats_available_of 5%N (store sys) = 120 /\ booked 5%N (store sys) = 2).
Proof.
  split.
  - intros H.
    assert (Hin : exists doc, find_one 9%N Scenario.seeded0 = Some doc
                              /\ Schemas.seats_available (body doc) = 117
                              /\ Schemas.seats_total (body doc) = 120).
    { eexists. split; [vm_compute; reflexivity|]. split; reflexivity. }
    destruct Hin as (doc & Hfind & Ha & Ht).
    apply find_one_In in Hfind. destruct Hfind as [Hin Hid].
    specialize (H doc Hin). rewrite Ha, Ht, Hid in H.
    vm_compute in H. discriminate H.
  - vm_compute. split; reflexivity.
Qed.

(** C4, amended: from the store that seeding leaves, with any requests under
    any schedule, every seeded flight stays in the store with its 120 seats
    in all, and the seats left plus the passengers of the confirmed bookings
    that reference it, less the passengers whose booking is written and whose
    decrement is still to come, are the seats it was seeded with:
    [120 - 3 * d] for a flight of day [d].  When no call is in progress, the
    seats left plus the booked passengers are that number. *)
Theorem C4_seats_accounted_from_seeding
    (utcnow : Datetime.datetime) (db0 : Store) (reqs : list BookingRequest)
    (schedule : list nat) (oid : Bson.ObjectId_t) (f0 : Stored Schemas.Flight) :
  startup_event utcnow (Some Database.empty) = Some db0 ->
  find_one oid db0 = Some f0 ->
  let sys := exec schedule (start db0 reqs) in
  (exists d, 0 <= d < 5 /\ Schemas.seats_available (body f0) = 120 - d * 3)
  /\ exists f,
       find_one oid (store sys) = Some f
       /\ Schemas.seats_total (body f) = 120
       /\ Schemas.seats_available (body f) + booked oid (store sys)
          - pending_all oid (workers sys)
          = Schemas.seats_available (body f0)
       /\ (quiescent sys = true ->
           Schemas.seats_available (body f) + booked oid (store sys)
           = Schemas.seats_available (body f0)).
Proof.
  intros Hseed Hfind sys.
  destruct (startup_event_on_empty _ _ Hseed) as [Hnob Hall].
  destruct (find_one_In _ _ _ Hfind) as [Hin _].
  rewrite Forall_forall in Hall. destruct (Hall _ Hin) as [Htot Hav].
  split; [exact Hav|].
  destruct (exec_keeps schedule (start db0 reqs) (start_workers db0 reqs)) as (_ & Hk & _).
  destruct (Hk _ _ Hfind) as (f & Hf & Hft & _). fold sys in Hf.
  destruct (seats_accounted db0 reqs schedule oid) as [Hacc Hq]. fold sys in Hacc, Hq.
  assert (Hb0 : booked oid db0 = 0) by (unfold booked; now rewrite Hnob).
  unfold accounted, seats_available_of in Hacc. unfold seats_available_of in Hq.
  rewrite Hf in Hacc, Hq. rewrite Hfind, Hb0 in Hacc, Hq.
  exists f. split; [exact Hf|]. split; [congruence|].
  split; [lia|]. intros Hquiet. specialize (Hq Hquiet). lia.
Qed.

Lemma C4_seats_accounted_from_seeding_witness :
  let sys := exec Scenario.turns
               (start Scenario.seeded0 [Scenario.request 9%N 2; Scenario.request 9%N 3]) in
  exists f,
    find_one 9%N (store sys) = Some f
    /\ Schemas.seats_total (body f) = 120
    /\ Schemas.seats_available (body f) + booked 9%N (store sys) = 117.
Proof.
  intros sys.
  destruct (C4_seats_accounted_from_seeding
              Scenario.utcnow0 Scenario.seeded0
              [Scenario.request 9%N 2; Scenario.request 9%N 3]
              Scenario.turns 9%N (Scenario.seeded_flight 9%N))
    as (_ & f & Hf & Ht & _ & Hq).
  - vm_compute. reflexivity.
  - vm_compute. reflexivity.
  - exists f. split; [exact Hf|]. split; [exact Ht|].
    apply Hq. vm_compute. reflexivity.
Defined.

(** The upper bound: under any schedule a seeded flight never has more seats
    left than it was seeded with, so never more than its 120 seats in all. *)
Lemma seats_available_never_above_total
    (utcnow : Datetime.datetime) (db0 : Store) (reqs : list BookingRequest)
    (schedule : list nat) (oid : Bson.ObjectId_t) (f0 : Stored Schemas.Flight) :
  startup_event utcnow (Some Database.empty) = Some db0 ->
  find_one oid db0 = Some f0 ->
  exists f,
    find_one oid (store (exec schedule (start db0 reqs))) = Some f
    /\ Schemas.seats_available (body f) <= Schemas.seats_total (body f).
Proof.
  intros Hseed Hfind.
  destruct (startup_event_on_empty _ _ Hseed) as [_ Hall].
  destruct (find_one_In _ _ _ Hfind) as [Hin _].
  rewrite Forall_forall in Hall. destruct (Hall _ Hin) as [Htot (d & Hd & Hav)].
  destruct (exec_keeps schedule (start db0 reqs) (start_workers db0 reqs)) as (_ & Hk & _).
  destruct (Hk _ _ Hfind) as (f & Hf & Hft & Hle).
  exists f. split; [exact Hf|]. lia.
Qed.

(** ** Calls one after another, and calls in flight together *)

(** A call run alone leaves no flight with a negative seat count that had
    none before, and adds no seat. *)
Lemma create_booking_alone_keeps_seats (req : BookingRequest) (db : Store)
    (oid : Bson.ObjectId_t) (f : Stored Schemas.Flight) :
  find_one oid db = Some f ->
  0 <= Schemas.seats_available (body f) ->
  exists f',
    find_one oid (snd (run (create_booking req) db)) = Some f'
    /\ 0 <= Schemas.seats_available (body f') <= Schemas.seats_available (body f).
Proof.
  intros Hfind Hpos. rewrite create_booking_run.
  destruct (Bson.ObjectId (flight_id req)) as [fid|]; cbn [snd];
    [|exists f; split; [exact Hfind|lia]].
  destruct (find_one fid db) as [g|] eqn:Hg; cbn [snd];
    [|exists f; split; [exact Hfind|lia]].
  destruct (Z.ltb_spec (Schemas.seats_available (body g)) (Py.len (passengers req)));
    cbn [snd]; [exists f; split; [exact Hfind|lia]|].
  destruct (Schemas.Booking_ok _); cbn [snd]; [|exists f; split; [exact Hfind|lia]].
  rewrite find_one_update_one, find_one_create_document, Hfind.
  destruct (N.eqb_spec oid fid) as [->|Hne].
  - eexists. split; [reflexivity|]. cbn [inc_seats body Schemas.seats_available].
    assert (g = f) by congruence. subst g.
    pose proof (len_nonneg (passengers req)). lia.
  - exists f. split; [reflexivity|lia].
Qed.

(** The scenario, one request after the other: the first is served, the
    second is refused, no seat is left. *)
Example scenario_last_two_seats_one_by_one :
  let sys := exec Scenario.one_by_one
               (start (Scenario.db_F 2)
                      [Scenario.request Scenario.F_id 2; Scenario.request Scenario.F_id 2]) in
  workers sys
  = [Ret {| booking_id := Bson.str 2%N; status := "confirmed" |};
     Raise (mk_HTTPException 400 "Not enough seats available")]
  /\ seats_available_of Scenario.F_id (store sys) = 0
  /\ map (fun d => Py.len (Schemas.passengers (body d))) (booking (store sys)) = [2].
Proof. vm_compute. repeat split; reflexivity. Qed.

(** C1, on the code: flight F has 2 seats left and two requests for two
    passengers each are in flight together, their store operations taking
    turns.  Both look the flight up before either writes; both succeed, two
    bookings of two passengers are stored, and [seats_available] ends at -2.
    The same happens in the seeded store, on the flight with id 5, once a
    first call has taken 118 of its 120 seats. *)
Theorem C1_last_two_seats_sold_twice :
  (let sys := exec Scenario.turns
                (start (Scenario.db_F 2)
                       [Scenario.request Scenario.F_id 2; Scenario.request Scenario.F_id 2]) in
   seats_available_of Scenario.F_id (Scenario.db_F 2) = 2
   /\ quiescent sys = true
   /\ workers sys
      = [Ret {| booking_id := Bson.str 2%N; status := "confirmed" |};
         Ret {| booking_id := Bson.str 3%N; status := "confirmed" |}]
   /\ seats_available_of Scenario.F_id (store sys) = -2
   /\ map (fun d => Py.len (Schemas.passengers (body d))) (booking (store sys)) = [2; 2])
  /\ (let before := snd (run (create_booking (Scenario.request 5%N 118)) Scenario.seeded0) in
      let sys := exec Scenario.turns
                   (start before [Scenario.request 5%N 2; Scenario.request 5%N 2]) in
      seats_available_of 5%N before = 2
      /\ quiescent sys = true
      /\ map succeeded (workers sys) = [true; true]
      /\ seats_available_of 5%N (store sys) = -2
      /\ map (fun d => Py.len (Schemas.passengers (body d))) (booking (store sys))
         = [118; 2; 2]).
Proof.
  split.
  - vm_compute. repeat split; reflexivity.
  - vm_compute. repeat split; reflexivity.
Qed.

(** C5, on the code: in the seeded store every flight has between 0 and
    [seats_total] seats left; two requests for 61 passengers each on the
    flight with id 5 (120 seats left), their store operations taking turns,
    both succeed and leave it with -2 seats. *)
Theorem C5_seats_available_below_zero :
  let sys := exec Scenario.turns
               (start Scenario.seeded0 [Scenario.request 5%N 61; Scenario.request 5%N 61]) in
  forallb (fun d => (0 <=? Schemas.seats_available (body d))
                    && (Schemas.seats_available (body d) <=? Schemas.seats_total (body d)))
          (flight Scenario.seeded0) = true
  /\ seats_available_of 5%N Scenario.seeded0 = 120
  /\ quiescent sys = true
  /\ map succeeded (workers sys) = [true; true]
  /\ seats_available_of 5%N (store sys) = -2.
Proof. vm_compute. repeat split; reflexivity. Qed.

(** * Further properties of the handlers *)

Import Facts.

(** ** Ids: malformed, unknown, and read back *)

Lemma ObjectId_length (s : string) (oid : Bson.ObjectId_t) :
  Bson.ObjectId s = Some oid -> String.length s = 24%nat.
Proof.
  unfold Bson.ObjectId. destruct (Nat.eqb_spec (String.length s) 24); [auto|discriminate].
Qed.

(** X1: a booking request whose flight id is not 24 characters long is
    answered 400 "Invalid flight id" before the store is asked anything: the
    call has no store operation and the worker serving it is at its end from
    the start. *)
Theorem booking_with_malformed_id_never_reaches_store (req : BookingRequest) (db : Store) :
  String.length (flight_id req) <> 24%nat ->
  run (create_booking req) db = (Err (mk_HTTPException 400 "Invalid flight id"), db)
  /\ trace (create_booking req) db = []
  /\ finished (create_booking req) = true.
Proof.
  intros Hlen.
  assert (Hnone : Bson.ObjectId (flight_id req) = None).
  { destruct (Bson.ObjectId (flight_id req)) as [oid|] eqn:H; [|reflexivity].
    apply ObjectId_length in H. contradiction. }
  rewrite create_booking_run, create_booking_trace. unfold create_booking.
  rewrite Hnone. repeat split.
Qed.

Lemma booking_with_malformed_id_never_reaches_store_witness :
  run (create_booking (mk_BookingRequest "not-an-id" "sara@example.com" [Scenario.passenger]))
      (Scenario.db_F 2)
    = (Err (mk_HTTPException 400 "Invalid flight id"), Scenario.db_F 2)
  /\ trace (create_booking (mk_BookingRequest "not-an-id" "sara@example.com" [Scenario.passenger]))
           (Scenario.db_F 2) = []
  /\ finished (create_booking (mk_BookingRequest "not-an-id" "sara@example.com"
                                 [Scenario.passenger])) = true.
Proof.
  apply (booking_with_malformed_id_never_reaches_store
           (mk_BookingRequest "not-an-id" "sara@example.com" [Scenario.passenger])
           (Scenario.db_F 2)).
  vm_compute. discriminate.
Defined.

(** X2: a booking request whose id is well formed but names no stored flight
    is answered 404 "Flight not found"; its only store operation is the
    lookup, and the store is what it was. *)
Theorem booking_on_unknown_flight_not_found
    (req : BookingRequest) (db : Store) (fid : Bson.ObjectId_t) :
  Bson.ObjectId (flight_id req) = Some fid ->
  find_one fid db = None ->
  run (create_booking req) db = (Err (mk_HTTPException 404 "Flight not found"), db)
  /\ trace (create_booking req) db = [OpFindOne fid]
  /\ step (create_booking req) db = (Raise (mk_HTTPException 404 "Flight not found"), db).
Proof.
  intros Hoid Hfind.
  rewrite create_booking_run, create_booking_trace, Hoid, Hfind.
  repeat split. unfold create_booking. rewrite Hoid. simpl. now rewrite Hfind.
Qed.

Lemma booking_on_unknown_flight_not_found_witness :
  run (create_booking (Scenario.request 7%N 1)) (Scenario.db_F 2)
    = (Err (mk_HTTPException 404 "Flight not found"), Scenario.db_F 2)
  /\ trace (create_booking (Scenario.request 7%N 1)) (Scenario.db_F 2) = [OpFindOne 7%N]
  /\ step (create_booking (Scenario.request 7%N 1)) (Scenario.db_F 2)
     = (Raise (mk_HTTPException 404 "Flight not found"), Scenario.db_F 2).
Proof.
  apply (booking_on_unknown_flight_not_found
           (Scenario.request 7%N 1) (Scenario.db_F 2) 7%N); reflexivity.
Defined.

(** [str] of an id, read back by [ObjectId]. *)
Lemma hex_digit_hex_char (d : N) :
  (d < 16)%N -> Bson.hex_digit (Bson.hex_char d) = Some d.
Proof.
  intros Hd.
  assert (H : (d = 0 \/ d = 1 \/ d = 2 \/ d = 3 \/ d = 4 \/ d = 5 \/ d = 6 \/ d = 7
               \/ d = 8 \/ d = 9 \/ d = 10 \/ d = 11 \/ d = 12 \/ d = 13 \/ d = 14
               \/ d = 15)%N) by lia.
  repeat (destruct H as [->|H]; [reflexivity|]). subst d. reflexivity.
Qed.

Lemma hex_str_length (k : nat) (n : N) (acc : string) :
  String.length (Bson.hex_str k n acc) = (k + String.length acc)%nat.
Proof.
  revert n acc. induction k as [|k IH]; intros n acc; simpl.
  - reflexivity.
  - rewrite IH. simpl. lia.
Qed.

Lemma hex_value_hex_str (k : nat) (n a : N) (acc : string) :
  Bson.hex_value (Bson.hex_str k n acc) a
  = Bson.hex_value acc (a * 16 ^ N.of_nat k + n mod 16 ^ N.of_nat k)%N.
Proof.
  revert n a acc. induction k as [|k IH]; intros n a acc.
  - simpl. rewrite N.mod_1_r. f_equal. lia.
  - cbn [Bson.hex_str]. rewrite IH. cbn [Bson.hex_value].
    rewrite hex_digit_hex_char by (apply N.mod_lt; discriminate).
    f_equal. rewrite Nat2N.inj_succ, N.pow_succ_r'.
    rewrite (N.Div0.mod_mul_r n 16 (16 ^ N.of_nat k)). lia.
Qed.

Lemma ObjectId_str (oid : Bson.ObjectId_t) :
  (oid < 16 ^ 24)%N -> Bson.ObjectId (Bson.str oid) = Some oid.
Proof.
  intros Hlt. unfold Bson.ObjectId, Bson.str.
  rewrite hex_str_length. cbn [String.length Nat.add Nat.eqb].
  rewrite hex_value_hex_str. cbn [Bson.hex_value].
  f_equal. change (N.of_nat 24) with 24%N. rewrite N.mod_small by exact Hlt. lia.
Qed.

Lemma find_one_NoDup (db : Store) (d : Stored Schemas.Flight) :
  NoDup (map _id (flight db)) -> In d (flight db) -> find_one (_id d) db = Some d.
Proof.
  unfold find_one. generalize (flight db) as l.
  induction l as [|e l IH]; intros Hnd Hin; simpl in *.
  - contradiction.
  - inversion Hnd as [|? ? Hnotin Hnd']; subst.
    destruct Hin as [->|Hin].
    + now rewrite N.eqb_refl.
    + destruct (N.eqb_spec (_id e) (_id d)) as [He|He].
      * exfalso. apply Hnotin. rewrite He. now apply in_map.
      * now apply IH.
Qed.

Lemma search_flights_In (q : SearchQuery) (db : Store) (r : Doc string Schemas.Flight) :
  In r (search_flights q db) ->
  exists d, r = to_str_id d /\ In d (flight db) /\ search_filter q (body d) = true.
Proof.
  unfold search_flights, find_many. intros Hin.
  apply in_map_iff in Hin. destruct Hin as (d & <- & Hd).
  apply (Permutation_in _ (sort_by_departure_perm _)) in Hd.
  apply filter_In in Hd. destruct Hd as [Hd Hf]. now exists d.
Qed.

(** X3: a flight listed by a search can be fetched by the id the search
    gave: when the flights of the store have different ids that fit twelve
    bytes, [get_flight] on the [_id] of a search result returns that very
    result, and leaves the store as it is. *)
Theorem search_result_fetched_by_its_id
    (q : SearchQuery) (db : Store) (r : Doc string Schemas.Flight) :
  flight_ids_ok db ->
  In r (search_flights q db) ->
  run (get_flight (_id r)) db = (Ok r, db).
Proof.
  intros [Hnd Hfit] Hin.
  destruct (search_flights_In _ _ _ Hin) as (d & -> & Hd & _).
  rewrite Forall_forall in Hfit. specialize (Hfit _ Hd).
  unfold get_flight. cbn [to_str_id _id].
  rewrite (ObjectId_str _ Hfit). cbn [run].
  now rewrite (find_one_NoDup _ _ Hnd Hd).
Qed.

(** ** Seeding *)

Section SeedInvariant.

Variable base : Datetime.datetime.
Variable P : Schemas.Flight -> Prop.
Hypothesis P_seed_flight :
  forall d r flights f,
    0 <= d < 5 -> In r routes -> seed_flight base d r flights = Some f -> P f.

Lemma seed_routes_Forall (d : Z) (rs : list (string * string))
    (acc : option (list Schemas.Flight)) :
  0 <= d < 5 -> incl rs routes ->
  all_flights P acc -> all_flights P (fold_left (seed_route base d) rs acc).
Proof.
  intros Hd. revert acc. induction rs as [|r rs IH]; intros acc Hrs Hacc.
  - exact Hacc.
  - cbn [fold_left]. apply IH.
    + intros x Hx. apply Hrs. now right.
    + destruct acc as [flights|]; [|exact I]. cbn [seed_route].
      destruct (seed_flight base d r flights) as [f|] eqn:Hf; [|exact I].
      apply Forall_app. split; [exact Hacc|].
      constructor; [|constructor].
      apply (P_seed_flight d r flights f Hd); [apply Hrs; now left|exact Hf].
Qed.

Lemma seed_days_Forall (ds : list Z) (acc : option (list Schemas.Flight)) :
  Forall (fun d => 0 <= d < 5) ds ->
  all_flights P acc ->
  all_flights P (fold_left (fun acc d => fold_left (seed_route base d) routes acc) ds acc).
Proof.
  intros Hds. revert acc. induction Hds as [|d ds Hd Hds IH]; intros acc Hacc.
  - exact Hacc.
  - cbn [fold_left]. apply IH.
    apply seed_routes_Forall; [exact Hd|apply incl_refl|exact Hacc].
Qed.

Lemma seed_flights_Forall (flights : list Schemas.Flight) :
  seed_flights base = Some flights -> Forall P flights.
Proof.
  intros H.
  assert (Hall : all_flights P (seed_flights base)).
  { unfold seed_flights. apply seed_days_Forall.
    - change (Py.range 0 5) with [0; 1; 2; 3; 4]. repeat constructor; lia.
    - constructor. }
  rewrite H in Hall. exact Hall.
Qed.

End SeedInvariant.

(** Every flight of the loops passes the checks of [Flight], whatever the
    clock says: twenty flights are built. *)
Lemma seed_flight_some (base : Datetime.datetime) (d : Z) (r : string * string)
    (flights : list Schemas.Flight) :
  In d [0; 1; 2; 3; 4] -> In r routes -> exists f, seed_flight base d r flights = Some f.
Proof.
  intros Hd Hr. unfold seed_flight.
  assert (Hp : exists pb, price_base_get r = Some pb /\ In pb [70; 65; 60; 55]).
  { simpl in Hr.
    repeat (destruct Hr as [<-|Hr]; [eexists; split; [reflexivity|simpl; tauto]|]).
    contradiction. }
  destruct Hp as (pb & -> & Hpb).
  unfold Schemas.Flight_ok. cbn [Schemas.price Schemas.seats_total Schemas.seats_available].
  simpl in Hd, Hpb.
  repeat (destruct Hd as [<-|Hd];
          [repeat (destruct Hpb as [<-|Hpb]; [eexists; reflexivity|]); contradiction|]).
  contradiction.
Qed.

Lemma seed_routes_length (base : Datetime.datetime) (d : Z) (rs : list (string * string))
    (flights : list Schemas.Flight) :
  In d [0; 1; 2; 3; 4] -> incl rs routes ->
  exists flights',
    fold_left (seed_route base d) rs (Some flights) = Some flights'
    /\ List.length flights' = (List.length flights + List.length rs)%nat.
Proof.
  intros Hd. revert flights. induction rs as [|r rs IH]; intros flights Hrs.
  - exists flights. split; [reflexivity|simpl; lia].
  - cbn [fold_left seed_route].
    destruct (seed_flight_some base d r flights Hd (Hrs r (or_introl eq_refl))) as (f & ->).
    destruct (IH (flights ++ [f]) (fun x Hx => Hrs x (or_intror Hx))) as (fl & Hfl & Hlen).
    exists fl. split; [exact Hfl|]. rewrite Hlen, length_app. simpl. lia.
Qed.

Lemma seed_days_length (base : Datetime.datetime) (ds : list Z)
    (flights : list Schemas.Flight) :
  incl ds [0; 1; 2; 3; 4] ->
  exists flights',
    fold_left (fun acc d => fold_left (seed_route base d) routes acc) ds (Some flights)
    = Some flights'
    /\ List.length flights' = (List.length flights + 4 * List.length ds)%nat.
Proof.
  revert flights. induction ds as [|d ds IH]; intros flights Hds.
  - exists flights. split; [reflexivity|simpl; lia].
  - cbn [fold_left].
    destruct (seed_routes_length base d routes flights (Hds d (or_introl eq_refl))
                (incl_refl _)) as (fl1 & -> & Hl1).
    destruct (IH fl1 (fun x Hx => Hds x (or_intror Hx))) as (fl2 & Hfl2 & Hl2).
    exists fl2. split; [exact Hfl2|]. rewrite Hl2, Hl1. simpl. lia.
Qed.

Lemma seed_flights_some (base : Datetime.datetime) :
  exists f flights, seed_flights base = Some (f :: flights) /\ List.length flights = 19%nat.
Proof.
  destruct (seed_days_length base (Py.range 0 5) [] (incl_refl _)) as (fl & Hfl & Hlen).
  change (List.length (Py.range 0 5)) with 5%nat in Hlen. simpl in Hlen.
  destruct fl as [|f flights]; [discriminate Hlen|].
  exists f, flights. split; [exact Hfl|]. simpl in Hlen. lia.
Qed.

(** What [startup_event] makes of an empty database. *)
Lemma startup_event_empty_eq (utcnow : Datetime.datetime) :
  exists f flights,
    seed_flights (Datetime.replace_hour utcnow 6) = Some (f :: flights)
    /\ List.length flights = 19%nat
    /\ startup_event utcnow (Some Database.empty)
       = Some (insert_many_flight (f :: flights)
                 (insert_many_airport AIRPORTS_SAMPLE Database.empty)).
Proof.
  destruct (seed_flights_some (Datetime.replace_hour utcnow 6)) as (f & flights & Hs & Hl).
  exists f, flights. split; [exact Hs|]. split; [exact Hl|].
  unfold startup_event, ensure_seed.
  change (count_documents (airport Database.empty) =? 0) with true. cbv iota.
  change (count_documents (flight (insert_many_airport AIRPORTS_SAMPLE Database.empty)) =? 0)
    with true.
  cbv iota. now rewrite Hs.
Qed.

Lemma with_ids_ids {A : Type} (next : N) (l : list A) :
  Forall (fun d => (next <= _id d < next + N.of_nat (List.length l))%N) (with_ids next l)
  /\ NoDup (map _id (with_ids next l)).
Proof.
  revert next. induction l as [|a l IH]; intros next; cbn [with_ids map List.length].
  - split; constructor.
  - destruct (IH (N.succ next)) as [Hall Hnd]. split.
    + constructor; [cbn [_id]; lia|].
      eapply Forall_impl; [|exact Hall]. intros d Hd. cbn beta in Hd. lia.
    + constructor; [|exact Hnd]. cbn [_id]. intros Hin.
      apply in_map_iff in Hin. destruct Hin as (d & Hd & Hin).
      rewrite Forall_forall in Hall. specialize (Hall _ Hin). cbn beta in Hall. lia.
Qed.

Lemma startup_flight_ids_ok (utcnow : Datetime.datetime) (db0 : Store) :
  startup_event utcnow (Some Database.empty) = Some db0 -> flight_ids_ok db0.
Proof.
  destruct (startup_event_empty_eq utcnow) as (f & flights & _ & Hl & ->).
  intros [= <-]. unfold flight_ids_ok, insert_many_flight. cbn [flight app].
  change (flight (insert_many_airport AIRPORTS_SAMPLE Database.empty))
    with (@nil (Stored Schemas.Flight)).
  change (next_oid (insert_many_airport AIRPORTS_SAMPLE Database.empty)) with 5%N.
  cbn [app].
  destruct (with_ids_ids 5%N (f :: flights)) as [Hall Hnd].
  split; [exact Hnd|].
  eapply Forall_impl; [|exact Hall]. intros d Hd. cbn beta in Hd.
  cbn [List.length] in Hd. rewrite Hl in Hd.
  assert (H : (5 + N.of_nat 20 < 16 ^ 24)%N) by (vm_compute; reflexivity).
  change (S 19) with 20%nat in Hd. lia.
Qed.

Lemma count_documents_zero {A : Type} (c : list A) :
  (count_documents c =? 0) = match c with [] => true | _ :: _ => false end.
Proof.
  unfold count_documents, Py.len. destruct c as [|a c]; [reflexivity|].
  cbn [List.length]. apply Z.eqb_neq. lia.
Qed.



Lemma search_result_fetched_by_its_id_witness :
  run (get_flight (_id (to_str_id (Scenario.F 2)))) (Scenario.db_F 2)
  = (Ok (to_str_id (Scenario.F 2)), Scenario.db_F 2).
Proof.
  apply (search_result_fetched_by_its_id
           (mk_SearchQuery "ika" "mhd" (Datetime.mk_datetime 739000 20 15 0 0))
           (Scenario.db_F 2) (to_str_id (Scenario.F 2))).
  - split.
    + vm_compute. constructor; [intros []|constructor].
    + cbv [Scenario.db_F flight]. constructor; [reflexivity|constructor].
  - vm_compute. left. reflexivity.
Defined.

(** ** What a search offers *)

Lemma search_flights_In_iff (q : SearchQuery) (db : Store) (d : Stored Schemas.Flight) :
  In d (flight db) -> search_filter q (body d) = true ->
  In (to_str_id d) (search_flights q db).
Proof.
  intros Hin Hf. unfold search_flights, find_many. apply in_map.
  apply (Permutation_in _ (Permutation_sym (sort_by_departure_perm _))).
  apply filter_In. now split.
Qed.

(** X6: a flight that a search lists can be booked.  When the flights of the
    store have different ids that fit twelve bytes, a request for one
    passenger that carries the [_id] of a search result (and whose amount,
    the price, passes the check of [Booking]) succeeds and takes one seat of
    that flight. *)
Theorem search_result_is_bookable
    (q : SearchQuery) (db : Store) (r : Doc string Schemas.Flight) (req : BookingRequest) :
  flight_ids_ok db ->
  In r (search_flights q db) ->
  flight_id req = _id r ->
  Py.len (passengers req) = 1 ->
  PrimFloat.leb 0%float (PrimFloat.mul (Schemas.price (body r)) (Py.float_of_int 1)) = true ->
  exists fid db',
    Bson.ObjectId (flight_id req) = Some fid
    /\ run (create_booking req) db
       = (Ok {| booking_id := Bson.str (next_oid db); status := "confirmed" |}, db')
    /\ seats_available_of fid db' = Schemas.seats_available (body r) - 1.
Proof.
  intros [Hnd Hfit] Hin Hid Hone Hprice.
  destruct (search_flights_In _ _ _ Hin) as (d & -> & Hd & Hf).
  rewrite Forall_forall in Hfit. specialize (Hfit _ Hd).
  cbn [to_str_id _id body] in *.
  assert (Hoid : Bson.ObjectId (flight_id req) = Some (_id d)).
  { rewrite Hid. now apply ObjectId_str. }
  assert (Hfind : find_one (_id d) db = Some d) by now apply find_one_NoDup.
  apply search_filter_spec in Hf. destruct Hf as (_ & _ & _ & Hseats).
  exists (_id d). eexists.
  rewrite create_booking_run, Hoid, Hfind, Hone.
  assert (Hlt : (Schemas.seats_available (body d) <? 1) = false) by (apply Z.ltb_ge; lia).
  rewrite Hlt.
  assert (Hok : Schemas.Booking_ok (booking_for req d) = true).
  { unfold Schemas.Booking_ok, booking_for. cbn [Schemas.total_amount].
    rewrite Hone. exact Hprice. }
  rewrite Hok. split; [reflexivity|]. split; [reflexivity|].
  rewrite seats_update_one, find_one_create_document, Hfind, N.eqb_refl. lia.
Qed.

Lemma search_result_is_bookable_witness :
  exists fid db',
    Bson.ObjectId (flight_id (Scenario.request Scenario.F_id 1)) = Some fid
    /\ run (create_booking (Scenario.request Scenario.F_id 1)) (Scenario.db_F 2)
       = (Ok {| booking_id := Bson.str (next_oid (Scenario.db_F 2)); status := "confirmed" |},
          db')
    /\ seats_available_of fid db'
       = Schemas.seats_available (body (to_str_id (Scenario.F 2))) - 1.
Proof.
  apply (search_result_is_bookable
           (mk_SearchQuery "ika" "mhd" (Datetime.mk_datetime 739000 20 15 0 0))
           (Scenario.db_F 2) (to_str_id (Scenario.F 2)) (Scenario.request Scenario.F_id 1)).
  - split.
    + vm_compute. constructor; [intros []|constructor].
    + cbv [Scenario.db_F flight]. constructor; [reflexivity|constructor].
  - vm_compute. left. reflexivity.
  - reflexivity.
  - reflexivity.
  - reflexivity.
Defined.

Lemma update_first_ids (oid : Bson.ObjectId_t) (k : Z) (l : list (Stored Schemas.Flight)) :
  map _id (update_first oid k l) = map _id l.
Proof.
  induction l as [|d l IH]; cbn [update_first map].
  - reflexivity.
  - destruct (_id d =? oid)%N; cbn [map]; [reflexivity|now rewrite IH].
Qed.

Lemma flight_ids_ok_update_one (oid : Bson.ObjectId_t) (k : Z) (db : Store) :
  flight_ids_ok db -> flight_ids_ok (update_one oid k db).
Proof.
  unfold flight_ids_ok, update_one. cbn [flight]. intros [Hnd Hfit].
  split.
  - now rewrite update_first_ids.
  - apply Forall_map with (f := _id) (P := fun i => (i < 16 ^ 24)%N).
    rewrite update_first_ids. apply Forall_map. exact Hfit.
Qed.

Lemma str_injective (a b : Bson.ObjectId_t) :
  (a < 16 ^ 24)%N -> (b < 16 ^ 24)%N -> Bson.str a = Bson.str b -> a = b.
Proof.
  intros Ha Hb H. apply ObjectId_str in Ha, Hb. rewrite H in Ha. congruence.
Qed.

(** X7: selling out.  A request for exactly the seats that are left succeeds
    and leaves none; after it, every request with a passenger on that flight
    is refused with the 400 "Not enough seats available" and leaves the store
    alone, and (the flights having different ids that fit twelve bytes) no
    search lists a flight with that id. *)
Theorem booking_the_last_seats_sells_out
    (req : BookingRequest) (db : Store) (fid : Bson.ObjectId_t) (f : Stored Schemas.Flight) :
  flight_ids_ok db ->
  Bson.ObjectId (flight_id req) = Some fid ->
  find_one fid db = Some f ->
  Py.len (passengers req) = Schemas.seats_available (body f) ->
  Schemas.Booking_ok (booking_for req f) = true ->
  let db' := snd (run (create_booking req) db) in
  fst (run (create_booking req) db)
    = Ok {| booking_id := Bson.str (next_oid db); status := "confirmed" |}
  /\ seats_available_of fid db' = 0
  /\ (forall req',
        Bson.ObjectId (flight_id req') = Some fid ->
        passengers req' <> [] ->
        run (create_booking req') db'
        = (Err (mk_HTTPException 400 "Not enough seats available"), db'))
  /\ (forall q r, In r (search_flights q db') -> _id r <> Bson.str fid).
Proof.
  intros Hids Hoid Hfind Hlen Hok db'.
  assert (Hrun : run (create_booking req) db
                 = (Ok {| booking_id := Bson.str (next_oid db); status := "confirmed" |},
                    update_one fid (- Py.len (passengers req))
                               (snd (create_document (booking_for req f) db)))).
  { rewrite create_booking_run, Hoid, Hfind, Hok.
    assert (H : (Schemas.seats_available (body f) <? Py.len (passengers req)) = false)
      by (apply Z.ltb_ge; lia).
    now rewrite H. }
  assert (Hfind' : find_one fid db' = Some (inc_seats (- Py.len (passengers req)) f)).
  { unfold db'. rewrite Hrun. cbn [snd].
    now rewrite find_one_update_one, find_one_create_document, Hfind, N.eqb_refl. }
  assert (Hzero : Schemas.seats_available (body (inc_seats (- Py.len (passengers req)) f)) = 0).
  { cbn [inc_seats body Schemas.seats_available]. lia. }
  split; [now rewrite Hrun|].
  split; [unfold seats_available_of; now rewrite Hfind', Hzero|].
  split.
  - intros req' Hoid' Hne.
    rewrite create_booking_run, Hoid', Hfind', Hzero.
    assert (H : (0 <? Py.len (passengers req')) = true).
    { apply Z.ltb_lt. pose proof (len_nonneg (passengers req')).
      assert (Py.len (passengers req') <> 0) by (rewrite len_nil_iff; exact Hne). lia. }
    now rewrite H.
  - intros q r Hin Heq.
    destruct (search_flights_In _ _ _ Hin) as (d & -> & Hd & Hf).
    cbn [to_str_id _id] in Heq.
    assert (Hids' : flight_ids_ok db').
    { unfold db'. rewrite Hrun. cbn [snd]. apply flight_ids_ok_update_one. exact Hids. }
    destruct Hids' as [Hnd' Hfit']. destruct Hids as [_ Hfit].
    rewrite Forall_forall in Hfit, Hfit'.
    destruct (find_one_In _ _ _ Hfind) as [Hfin Hfid].
    assert (Hd_id : _id d = fid).
    { apply str_injective; [now apply Hfit'|rewrite <- Hfid; now apply Hfit|exact Heq]. }
    pose proof (find_one_NoDup _ _ Hnd' Hd) as Hfd. rewrite Hd_id, Hfind' in Hfd.
    injection Hfd as <-.
    apply search_filter_spec in Hf. destruct Hf as (_ & _ & _ & Hpos).
    rewrite Hzero in Hpos. lia.
Qed.

Lemma booking_the_last_seats_sells_out_witness :
  let db' := snd (run (create_booking (Scenario.request Scenario.F_id 2)) (Scenario.db_F 2)) in
  seats_available_of Scenario.F_id db' = 0
  /\ run (create_booking (Scenario.request Scenario.F_id 1)) db'
     = (Err (mk_HTTPException 400 "Not enough seats available"), db').
Proof.
  intros db'.
  destruct (booking_the_last_seats_sells_out
              (Scenario.request Scenario.F_id 2) (Scenario.db_F 2)
              Scenario.F_id (Scenario.F 2))
    as (_ & Hzero & Hrefused & _).
  - split.
    + vm_compute. constructor; [intros []|constructor].
    + cbv [Scenario.db_F flight]. constructor; [reflexivity|constructor].
  - reflexivity.
  - reflexivity.
  - reflexivity.
  - reflexivity.
  - split; [exact Hzero|].
    apply (Hrefused (Scenario.request Scenario.F_id 1)); [reflexivity|discriminate].
Defined.

(** ** Requests served one after another *)

Lemma run_create_booking_seats (req : BookingRequest) (db : Store)
    (oid : Bson.ObjectId_t) (f : Stored Schemas.Flight) :
  find_one oid db = Some f ->
  exists f',
    find_one oid (snd (run (create_booking req) db)) = Some f'
    /\ Schemas.seats_available (body f')
       = Schemas.seats_available (body f)
         - consumed oid [(req, fst (run (create_booking req) db))]
    /\ (0 <= Schemas.seats_available (body f) -> 0 <= Schemas.seats_available (body f')).
Proof.
  intros Hfind. rewrite create_booking_run. unfold consumed. cbn [fold_right fst snd].
  destruct (Bson.ObjectId (flight_id req)) as [fid|] eqn:Hoid; cbn [fst snd is_ok andb].
  2:{ exists f. split; [exact Hfind|]. split; lia. }
  destruct (find_one fid db) as [g|] eqn:Hg; cbn [fst snd is_ok andb].
  2:{ exists f. split; [exact Hfind|]. split; lia. }
  destruct (Z.ltb_spec (Schemas.seats_available (body g)) (Py.len (passengers req)));
    cbn [fst snd is_ok andb].
  { exists f. split; [exact Hfind|]. split; lia. }
  destruct (Schemas.Booking_ok _); cbn [fst snd is_ok andb].
  2:{ exists f. split; [exact Hfind|]. split; lia. }
  rewrite find_one_update_one, find_one_create_document, Hfind.
  rewrite (N.eqb_sym fid oid).
  destruct (N.eqb_spec oid fid) as [->|Hne].
  - assert (g = f) by congruence. subst g.
    eexists. split; [reflexivity|]. cbn [inc_seats body Schemas.seats_available].
    split; lia.
  - exists f. split; [reflexivity|]. split; lia.
Qed.

Lemma consumed_cons (oid : Bson.ObjectId_t) (ro : BookingRequest * Outcome BookingResponse)
    (served : list (BookingRequest * Outcome BookingResponse)) :
  consumed oid (ro :: served) = consumed oid [ro] + consumed oid served.
Proof. unfold consumed. cbn [fold_right]. lia. Qed.

Lemma consumed_nonneg (oid : Bson.ObjectId_t)
    (served : list (BookingRequest * Outcome BookingResponse)) :
  0 <= consumed oid served.
Proof.
  induction served as [|ro served IH].
  - unfold consumed. cbn [fold_right]. lia.
  - rewrite consumed_cons. unfold consumed at 1. cbn [fold_right].
    pose proof (len_nonneg (passengers (fst ro))).
    destruct (is_ok (snd ro) && _)%bool; lia.
Qed.

(** X8: served one after another, requests never oversell.  For a flight
    with [K >= 0] seats left, after any list of requests, each run to its end
    before the next starts, the seats left are [K] less the passengers of the
    requests that succeeded on that flight, and they are not negative: the
    successful requests took at most [K] seats. *)
Theorem served_one_by_one_never_oversold
    (reqs : list BookingRequest) (db : Store) (oid : Bson.ObjectId_t)
    (f : Stored Schemas.Flight) :
  find_one oid db = Some f ->
  0 <= Schemas.seats_available (body f) ->
  exists f',
    find_one oid (snd (serve reqs db)) = Some f'
    /\ Schemas.seats_available (body f')
       = Schemas.seats_available (body f) - consumed oid (fst (serve reqs db))
    /\ 0 <= Schemas.seats_available (body f')
    /\ 0 <= consumed oid (fst (serve reqs db)) <= Schemas.seats_available (body f).
Proof.
  revert db f. induction reqs as [|req reqs IH]; intros db f Hfind Hpos.
  - exists f. cbn [serve fst snd]. unfold consumed. cbn [fold_right].
    split; [exact Hfind|]. repeat split; lia.
  - cbn [serve].
    destruct (run_create_booking_seats req db oid f Hfind) as (f1 & Hf1 & Hs1 & Hp1).
    destruct (run (create_booking req) db) as [out db1] eqn:Hrun. cbn [fst snd] in *.
    destruct (IH db1 f1 Hf1 (Hp1 Hpos)) as (f2 & Hf2 & Hs2 & Hp2 & Hc2).
    destruct (serve reqs db1) as [outs db2] eqn:Hserve. cbn [fst snd] in *.
    exists f2. split; [exact Hf2|].
    rewrite consumed_cons.
    pose proof (consumed_nonneg oid [(req, out)]).
    repeat split; lia.
Qed.

Lemma served_one_by_one_never_oversold_witness :
  exists f',
    find_one Scenario.F_id
      (snd (serve [Scenario.request Scenario.F_id 2; Scenario.request Scenario.F_id 2]
                  (Scenario.db_F 2))) = Some f'
    /\ Schemas.seats_available (body f') = 0.
Proof.
  destruct (served_one_by_one_never_oversold
              [Scenario.request Scenario.F_id 2; Scenario.request Scenario.F_id 2]
              (Scenario.db_F 2) Scenario.F_id (Scenario.F 2))
    as (f' & Hf' & Hs & _).
  - reflexivity.
  - vm_compute. discriminate.
  - exists f'. split; [exact Hf'|]. rewrite Hs. vm_compute. reflexivity.
Defined.

(** ** What seeding builds *)

(** The flight built for day [d] and route [r], read off [seed_flight]. *)
Lemma seed_flight_fields (base : Datetime.datetime) (d : Z) (r : string * string)
    (flights : list Schemas.Flight) (f : Schemas.Flight) :
  seed_flight base d r flights = Some f ->
  Schemas.Flight_ok f = true
  /\ (Schemas.origin f, Schemas.destination f) = r
  /\ Schemas.departure_time f
     = Datetime.add base (Datetime.timedelta d ((d mod 3) * 3) 0)
  /\ Schemas.arrival_time f
     = Datetime.add (Schemas.departure_time f) (Datetime.timedelta 0 1 10)
  /\ Schemas.seats_total f = 120
  /\ Schemas.seats_available f = 120 - d * 3.
Proof.
  unfold seed_flight.
  destruct (price_base_get r) as [pb|]; [|discriminate].
  destruct (Schemas.Flight_ok _) eqn:Hok; [|discriminate].
  intros [= <-]. split; [exact Hok|].
  cbn [Schemas.origin Schemas.destination Schemas.departure_time Schemas.arrival_time
       Schemas.seats_total Schemas.seats_available].
  split; [now destruct r|]. repeat split.
Qed.

Lemma seeded_departure (utcnow : Datetime.datetime) (d : Z) :
  0 <= d < 5 ->
  Datetime.add (Datetime.replace_hour utcnow 6) (Datetime.timedelta d ((d mod 3) * 3) 0)
  = Datetime.mk_datetime (Datetime.ordinal utcnow + d) (6 + 3 * (d mod 3)) 0 0 0.
Proof.
  intros Hd.
  assert (H : d = 0 \/ d = 1 \/ d = 2 \/ d = 3 \/ d = 4) by lia.
  unfold Datetime.add, Datetime.of_us, Datetime.to_us, Datetime.replace_hour,
    Datetime.timedelta.
  cbn [Datetime.ordinal Datetime.hour Datetime.minute Datetime.second Datetime.microsecond].
  destruct H as [-> | [-> | [-> | [-> | ->]]]];
    (f_equal; [Z.to_euclidean_division_equations; lia ..]).
Qed.

Lemma seed_flights_seeded_at (utcnow : Datetime.datetime) (flights : list Schemas.Flight) :
  seed_flights (Datetime.replace_hour utcnow 6) = Some flights ->
  Forall (seeded_at utcnow) flights.
Proof.
  apply seed_flights_Forall. intros d r fl f Hd Hr Hf.
  destruct (seed_flight_fields _ _ _ _ _ Hf) as (Hok & Hroute & Hdep & Harr & Htot & Hav).
  split; [exact Hok|]. split; [now rewrite Hroute|].
  exists d. split; [exact Hd|].
  split; [rewrite Hdep; now apply seeded_departure|].
  split; [rewrite Harr, to_us_add; reflexivity|]. now split.
Qed.

Lemma with_ids_length {A : Type} (next : N) (l : list A) :
  List.length (with_ids next l) = List.length l.
Proof.
  revert next. induction l as [|a l IH]; intros next; cbn [with_ids List.length].
  - reflexivity.
  - now rewrite IH.
Qed.

Lemma startup_event_seeded_at (utcnow : Datetime.datetime) (db0 : Store) :
  startup_event utcnow (Some Database.empty) = Some db0 ->
  Forall (fun doc => seeded_at utcnow (body doc)) (flight db0).
Proof.
  destruct (startup_event_empty_eq utcnow) as (f & flights & Hseed & _ & ->).
  intros [= <-]. unfold insert_many_flight. cbn [flight].
  change (flight (insert_many_airport AIRPORTS_SAMPLE Database.empty))
    with (@nil (Stored Schemas.Flight)).
  cbn [app]. apply Forall_map. rewrite with_ids_body.
  now apply seed_flights_seeded_at.
Qed.

(** With the clock up to 9999-12-27, every sum of the seeding loops is a
    date: [+] raises nowhere, and is the [Datetime.add] of [seed_flight]. *)
Lemma seed_times_are_dates (utcnow : Datetime.datetime) (d : Z) :
  five_days_ahead utcnow -> 0 <= d < 5 ->
  let base := Datetime.replace_hour utcnow 6 in
  let dep := Datetime.add base (Datetime.timedelta d ((d mod 3) * 3) 0) in
  Datetime.plus base (Datetime.timedelta d ((d mod 3) * 3) 0) = Some dep
  /\ Datetime.plus dep (Datetime.timedelta 0 1 10)
     = Some (Datetime.add dep (Datetime.timedelta 0 1 10)).
Proof.
  intros Hclock Hd base dep.
  assert (Hdep : dep = Datetime.mk_datetime (Datetime.ordinal utcnow + d)
                         (6 + 3 * (d mod 3)) 0 0 0)
    by (now apply seeded_departure).
  assert (Hbase : Datetime.to_us base = Datetime.ordinal utcnow * 86400000000 + 21600000000).
  { unfold base, Datetime.to_us, Datetime.replace_hour.
    cbn [Datetime.ordinal Datetime.hour Datetime.minute Datetime.second
         Datetime.microsecond]. lia. }
  pose proof (Z.mod_pos_bound d 3 ltac:(lia)) as Hmod.
  unfold five_days_ahead in Hclock.
  assert (Hrep : forall u, 86400000000 <= u < 3652060 * 86400000000 ->
                           Datetime.representable u = true).
  { intros u Hu. unfold Datetime.representable, Datetime.MAXORDINAL.
    apply andb_true_iff. split; [apply Z.leb_le|apply Z.ltb_lt]; lia. }
  unfold Datetime.plus. cbv zeta. split.
  - rewrite Hrep; [reflexivity|].
    rewrite Hbase. unfold Datetime.timedelta. lia.
  - rewrite Hrep; [reflexivity|].
    rewrite Hdep. unfold Datetime.to_us, Datetime.timedelta.
    cbn [Datetime.ordinal Datetime.hour Datetime.minute Datetime.second
         Datetime.microsecond]. lia.
Qed.

(** X10: what a first start builds.  With the clock up to 9999-12-27 (the
    five days of the seeding are dates), [startup_event] on an empty
    database gives a store with the five sample airports, twenty flights and
    no booking; the flights have different ids; each passes the checks of
    the [Flight] schema, flies one of the four routes, leaves on one of the
    five days from today ([d = 0 .. 4]) at 6, 9 or 12 o'clock
    ([6 + 3 * (d mod 3)]), arrives 70 minutes later, and has 120 seats of
    which [120 - 3 * d] are left.  None of the sums that give the departure
    and the arrival of a day raises [OverflowError]. *)
Theorem startup_on_empty_database (utcnow : Datetime.datetime) :
  five_days_ahead utcnow ->
  (forall d,
     0 <= d < 5 ->
     let base := Datetime.replace_hour utcnow 6 in
     let dep := Datetime.add base (Datetime.timedelta d ((d mod 3) * 3) 0) in
     Datetime.plus base (Datetime.timedelta d ((d mod 3) * 3) 0) = Some dep
     /\ Datetime.plus dep (Datetime.timedelta 0 1 10)
        = Some (Datetime.add dep (Datetime.timedelta 0 1 10)))
  /\ exists db0,
       startup_event utcnow (Some Database.empty) = Some db0
       /\ map body (airport db0) = AIRPORTS_SAMPLE
       /\ List.length (flight db0) = 20%nat
       /\ booking db0 = []
       /\ flight_ids_ok db0
       /\ Forall (fun doc => seeded_at utcnow (body doc)) (flight db0).
Proof.
  intros Hclock.
  split; [intros d Hd; now apply seed_times_are_dates|].
  destruct (startup_event_empty_eq utcnow) as (f & flights & Hseed & Hlen & Heq).
  eexists. split; [exact Heq|].
  split; [reflexivity|].
  split.
  { unfold insert_many_flight. cbn [flight].
    change (flight (insert_many_airport AIRPORTS_SAMPLE Database.empty))
      with (@nil (Stored Schemas.Flight)).
    rewrite app_nil_l, with_ids_length. cbn [List.length]. now rewrite Hlen. }
  split; [reflexivity|].
  split; [now apply (startup_flight_ids_ok utcnow)|].
  now apply startup_event_seeded_at.
Qed.

Lemma startup_on_empty_database_witness :
  exists db0,
    startup_event Scenario.utcnow0 (Some Database.empty) = Some db0
    /\ map body (airport db0) = AIRPORTS_SAMPLE
    /\ List.length (flight db0) = 20%nat
    /\ booking db0 = []
    /\ flight_ids_ok db0
    /\ Forall (fun doc => seeded_at Scenario.utcnow0 (body doc)) (flight db0).
Proof.
  apply (startup_on_empty_database Scenario.utcnow0).
  unfold five_days_ahead. simpl. lia.
Defined.

(** At 9999-12-28 the fifth day is no date: the sum raises. *)
Example seeding_overflows_in_the_last_days :
  Datetime.plus (Datetime.replace_hour (Datetime.mk_datetime 3652056 13 45 12 345) 6)
                (Datetime.timedelta 4 ((4 mod 3) * 3) 0)
  = None.
Proof. vm_compute. reflexivity. Qed.

Lemma routes_upper (unicode_upper : string -> string) (o d : string) :
  In (o, d) routes ->
  Py.str_upper unicode_upper o = o /\ Py.str_upper unicode_upper d = d
  /\ Py.str_len o = 3 /\ Py.str_len d = 3.
Proof.
  simpl. intros H.
  repeat (destruct H as [H|H]; [injection H as <- <-; repeat split; reflexivity|]).
  contradiction.
Qed.

(** X11: every seeded flight can be found.  Right after a first start (the
    clock up to 9999-12-27), the route answers a search for the origin and
    destination of a seeded flight, in any mix of upper and lower case, with
    a naive date on the day the flight leaves, at any time of that day, and
    before 9999-12-31, with a list that holds that flight. *)
Theorem seeded_flight_found_by_search
    (unicode_upper : string -> string) (utcnow : Datetime.datetime) (db0 : Store)
    (doc : Stored Schemas.Flight) (q : Http.SearchQuery) :
  five_days_ahead utcnow ->
  startup_event utcnow (Some Database.empty) = Some db0 ->
  In doc (flight db0) ->
  same_ignoring_case (Http.origin q) (Schemas.origin (body doc)) = true ->
  same_ignoring_case (Http.destination q) (Schemas.destination (body doc)) = true ->
  Datetime.utcoffset (Http.date q) = None ->
  Datetime.ordinal (Datetime.fields (Http.date q))
  = Datetime.ordinal (Schemas.departure_time (body doc)) ->
  Datetime.ordinal (Datetime.fields (Http.date q)) < 3652059 ->
  exists l,
    Http.post_flights_search unicode_upper q db0 = Ok l
    /\ In (to_str_id doc) l.
Proof.
  intros Hclock Hstart Hin Ho Hd Htz Hday Hlast.
  pose proof (startup_event_seeded_at _ _ Hstart) as Hall.
  rewrite Forall_forall in Hall.
  destruct (Hall _ Hin) as (_ & Hroute & d & Hdr & Hdep & _ & _ & Hav).
  destruct (routes_upper unicode_upper _ _ Hroute) as (Huo & Hud & Hlo & Hld).
  unfold five_days_ahead in Hclock.
  assert (Hmid : midnight_utc (Http.date q)
                 = Datetime.ordinal (Datetime.fields (Http.date q)) * 86400000000).
  { unfold midnight_utc. rewrite Htz. lia. }
  assert (Hord : Datetime.ordinal (Datetime.fields (Http.date q))
                 = Datetime.ordinal utcnow + d).
  { rewrite Hday, Hdep. reflexivity. }
  assert (Hends : day_has_both_ends (Http.date q)).
  { unfold day_has_both_ends. rewrite Hmid. lia. }
  unfold Http.post_flights_search, Http.SearchQuery_ok.
  rewrite (same_ignoring_case_len _ _ Ho), (same_ignoring_case_len _ _ Hd), Hlo, Hld.
  cbn [Z.eqb Pos.eqb andb]. unfold Http.search_flights.
  rewrite (search_window_some _ Hends).
  eexists. split; [reflexivity|].
  apply in_map.
  apply (Permutation_in _ (Permutation_sym (sort_by_departure_perm _))).
  apply filter_In. split; [exact Hin|].
  rewrite http_search_filter_wanted. apply wanted_spec.
  unfold Py.str_upper.
  rewrite (same_ignoring_case_upper unicode_upper _ _ Ho),
          (same_ignoring_case_upper unicode_upper _ _ Hd).
  fold (Py.str_upper unicode_upper (Schemas.origin (body doc))).
  fold (Py.str_upper unicode_upper (Schemas.destination (body doc))).
  split; [now rewrite Huo|]. split; [now rewrite Hud|].
  rewrite Hmid, Hord, Hdep.
  unfold Datetime.to_us.
  cbn [Datetime.ordinal Datetime.hour Datetime.minute Datetime.second Datetime.microsecond].
  pose proof (Z.mod_pos_bound d 3 ltac:(lia)). lia.
Qed.

Lemma seeded_flight_found_by_search_witness :
  exists l,
    Http.post_flights_search Scenario.sharp_s_upper
      (Http.mk_SearchQuery "ika" "Mhd"
         (Datetime.mk_zoned (Datetime.mk_datetime 739001 15 30 0 0) None))
      Scenario.seeded0
    = Ok l
    /\ In (to_str_id (Scenario.seeded_flight 9%N)) l.
Proof.
  apply (seeded_flight_found_by_search Scenario.sharp_s_upper Scenario.utcnow0).
  - unfold five_days_ahead. simpl. lia.
  - vm_compute. reflexivity.
  - vm_compute. do 4 right. left. reflexivity.
  - reflexivity.
  - reflexivity.
  - reflexivity.
  - reflexivity.
  - simpl. lia.
Defined.

(** ** Listing the bookings *)

Lemma ObjectId_nonempty (s : string) (oid : Bson.ObjectId_t) :
  Bson.ObjectId s = Some oid -> String.eqb s "" = false.
Proof.
  intros H. apply ObjectId_length in H. destruct s; [discriminate H|reflexivity].
Qed.

Lemma join_all_linked (db : Store) (items : list (Stored Schemas.Booking)) :
  Forall (fun b => exists oid,
                     Bson.ObjectId (Schemas.flight_id (body b)) = Some oid
                     /\ find_one oid db <> None) items ->
  exists results, Listing.join_all db items = Some results
                  /\ Forall2 (listed db) items results.
Proof.
  induction 1 as [|b items (oid & Hoid & Hfound) Hall (results & Hjoin & Hres)].
  - exists []. split; [reflexivity|constructor].
  - cbn [Listing.join_all]. unfold Listing.join_flight.
    rewrite (ObjectId_nonempty _ _ Hoid), Hoid, Hjoin.
    eexists. split; [reflexivity|].
    constructor; [|exact Hres].
    destruct (find_one oid db) as [f|] eqn:Hf; [|congruence].
    split; [reflexivity|]. exists oid, f. repeat split; assumption.
Qed.

Lemma list_bookings_linked (email : option string) (db : Store) :
  linked db ->
  exists results,
    Listing.list_bookings email db = Ok results
    /\ Forall2 (listed db)
               (filter (fun b => Listing.booking_filter email (body b)) (booking db))
               results.
Proof.
  intros Hl. unfold Listing.list_bookings, Listing.get_documents, find_many.
  destruct (join_all_linked db
              (filter (fun b => Listing.booking_filter email (body b)) (booking db)))
    as (results & Hjoin & Hres).
  - apply Forall_forall. intros b Hb. apply filter_In in Hb.
    unfold linked in Hl. rewrite Forall_forall in Hl. apply Hl. tauto.
  - exists results. now rewrite Hjoin.
Qed.

Lemma linked_create_document (b : Schemas.Booking) (db : Store) (oid : Bson.ObjectId_t) :
  Bson.ObjectId (Schemas.flight_id b) = Some oid ->
  find_one oid db <> None ->
  linked db -> linked (snd (create_document b db)).
Proof.
  intros Hoid Hfound Hl. unfold linked, create_document. cbn [snd booking].
  apply Forall_app. split.
  - exact Hl.
  - constructor; [|constructor]. exists oid. now split.
Qed.

Lemma linked_update_one (oid : Bson.ObjectId_t) (k : Z) (db : Store) :
  linked db -> linked (update_one oid k db).
Proof.
  unfold linked. cbn [update_one booking]. intros Hl.
  eapply Forall_impl; [|exact Hl]. intros b (o & Ho & Hf). exists o. split; [exact Ho|].
  rewrite find_one_update_one. destruct (find_one o db); [discriminate|congruence].
Qed.

Lemma sched_step_linked (sys : System) (i : nat) :
  Forall (worker_at (store sys)) (workers sys) ->
  linked (store sys) -> linked (store (sched_step sys i)).
Proof.
  intros Hall Hl. unfold sched_step.
  destruct (nth_error (workers sys) i) as [p|] eqn:Hi; [|exact Hl].
  assert (Hp : worker_at (store sys) p).
  { rewrite Forall_forall in Hall. apply Hall. eapply nth_error_In; eauto. }
  destruct Hp as [req|p Hp|b k oid Ho Hs Hf Hk|oid inc k Hf Hinc Hk].
  - destruct (step (create_booking req) (store sys)) as [p' db'] eqn:Hstep.
    destruct (step_at_start _ _ _ _ Hstep) as (-> & _ & _). exact Hl.
  - rewrite (finished_step _ _ Hp). exact Hl.
  - cbn [step]. unfold create_document. cbn [store].
    apply (linked_create_document b (store sys) oid Ho Hf Hl).
  - cbn [step store]. now apply linked_update_one.
Qed.

Lemma exec_linked (schedule : list nat) (sys : System) :
  Forall (worker_at (store sys)) (workers sys) ->
  linked (store sys) -> linked (store (exec schedule sys)).
Proof.
  revert sys. induction schedule as [|i schedule IH]; intros sys Hall Hl.
  - exact Hl.
  - cbn [exec fold_left]. apply IH.
    + apply (sched_step_keeps sys i Hall).
    + now apply sched_step_linked.
Qed.

(** X12: the listing never breaks on what the service itself stored.  From a
    store whose bookings all name a stored flight (a freshly seeded store has
    none), with any requests under any schedule, [list_bookings] answers, and
    its answer is, in the order of the collection, exactly the bookings with
    the given contact address (all of them when none is given), each with
    its id as a string and with the flight it names, as the store has it
    now, under ["flight"]. *)
Theorem bookings_listed_after_any_schedule
    (db0 : Store) (reqs : list BookingRequest) (schedule : list nat)
    (email : option string) :
  linked db0 ->
  let db := store (exec schedule (start db0 reqs)) in
  exists results,
    Listing.list_bookings email db = Ok results
    /\ Forall2 (listed db)
               (filter (fun b => Listing.booking_filter email (body b)) (booking db))
               results.
Proof.
  intros Hl db. apply list_bookings_linked.
  apply exec_linked; [apply start_workers|exact Hl].
Qed.

Lemma bookings_listed_after_any_schedule_witness :
  let db := store (exec Scenario.turns
                        (start Scenario.seeded0
                               [Scenario.request 9%N 2; Scenario.request 9%N 3])) in
  exists results,
    Listing.list_bookings (Some "sara@example.com") db = Ok results
    /\ Forall2 (listed db)
               (filter (fun b => Listing.booking_filter (Some "sara@example.com") (body b))
                       (booking db))
               results.
Proof.
  apply (bookings_listed_after_any_schedule Scenario.seeded0).
  unfold linked. change (booking Scenario.seeded0) with (@nil (Stored Schemas.Booking)).
  constructor.
Defined.

Lemma Forall2_In_left {A B : Type} (R : A -> B -> Prop) (l : list A) (l' : list B) (x : A) :
  Forall2 R l l' -> In x l -> exists y, In y l' /\ R x y.
Proof.
  induction 1 as [|a b l l' Hab Hll IH]; intros Hin.
  - contradiction.
  - destruct Hin as [->|Hin].
    + exists b. split; [now left|exact Hab].
    + destruct (IH Hin) as (y & Hy & HR). exists y. split; [now right|exact HR].
Qed.

(** X13: the listing shows the flight as it is now, not as it was booked.
    After a call that succeeded, on a store whose bookings all name a stored
    flight, the bookings listed for the contact address of the request
    include the new booking, under the id the response gave, and the flight
    attached to it has the seats left after the decrement. *)
Theorem new_booking_listed_with_current_flight
    (req : BookingRequest) (db db' : Store) (resp : BookingResponse) :
  linked db ->
  run (create_booking req) db = (Ok resp, db') ->
  exists results item fid f f',
    Listing.list_bookings (Some (contact_email req)) db' = Ok results
    /\ In item results
    /\ _id (Listing.booking item) = booking_id resp
    /\ body (Listing.booking item) = booking_for req f
    /\ find_one fid db = Some f
    /\ Listing.flight item = Some (to_str_id f')
    /\ find_one fid db' = Some f'
    /\ Schemas.seats_available (body f')
       = Schemas.seats_available (body f) - Py.len (passengers req).
Proof.
  intros Hl Hrun.
  destruct (run_create_booking_ok _ _ _ _ Hrun)
    as (fid & f & Hoid & Hfind & _ & _ & -> & ->).
  assert (Hl' : linked (update_one fid (- Py.len (passengers req))
                                   (snd (create_document (booking_for req f) db)))).
  { apply linked_update_one. apply (linked_create_document _ _ fid); auto. congruence. }
  destruct (list_bookings_linked (Some (contact_email req)) _ Hl') as (results & Hlist & Hres).
  set (doc := mk_Doc (next_oid db) (booking_for req f)).
  assert (Hin : In doc (filter (fun b => Listing.booking_filter (Some (contact_email req))
                                                                 (body b))
                               (booking (update_one fid (- Py.len (passengers req))
                                  (snd (create_document (booking_for req f) db)))))).
  { apply filter_In. split.
    - cbn [update_one booking create_document snd]. apply in_or_app. right. now left.
    - unfold Listing.booking_filter, doc. cbn [body booking_for Schemas.contact_email].
      destruct (String.eqb (contact_email req) ""); [reflexivity|apply String.eqb_refl]. }
  destruct (Forall2_In_left _ _ _ _ Hres Hin) as (item & Hitem & Hb & oid & f' & Ho & Hf' & Hfl).
  unfold doc in Ho. cbn [body booking_for Schemas.flight_id] in Ho.
  assert (oid = fid) by congruence. subst oid.
  exists results, item, fid, f, f'.
  split; [exact Hlist|]. split; [exact Hitem|].
  rewrite Hb. cbn [to_str_id _id body doc].
  split; [reflexivity|]. split; [reflexivity|]. split; [exact Hfind|].
  split; [exact Hfl|]. split; [exact Hf'|].
  rewrite find_one_update_one, find_one_create_document, Hfind, N.eqb_refl in Hf'.
  injection Hf' as <-. cbn [inc_seats body Schemas.seats_available]. lia.
Qed.

Lemma new_booking_listed_with_current_flight_witness :
  exists results item fid f f',
    Listing.list_bookings (Some (contact_email (Scenario.request Scenario.F_id 3)))
      (snd (run (create_booking (Scenario.request Scenario.F_id 3)) (Scenario.db_F 5)))
      = Ok results
    /\ In item results
    /\ _id (Listing.booking item) = Bson.str 2%N
    /\ body (Listing.booking item) = booking_for (Scenario.request Scenario.F_id 3) f
    /\ find_one fid (Scenario.db_F 5) = Some f
    /\ Listing.flight item = Some (to_str_id f')
    /\ find_one fid
         (snd (run (create_booking (Scenario.request Scenario.F_id 3)) (Scenario.db_F 5)))
       = Some f'
    /\ Schemas.seats_available (body f')
       = Schemas.seats_available (body f)
         - Py.len (passengers (Scenario.request Scenario.F_id 3)).
Proof.
  apply (new_booking_listed_with_current_flight
           (Scenario.request Scenario.F_id 3) (Scenario.db_F 5)
           (snd (run (create_booking (Scenario.request Scenario.F_id 3)) (Scenario.db_F 5)))
           {| booking_id := Bson.str 2%N; status := "confirmed" |}).
  - unfold linked. cbn [Scenario.db_F booking]. constructor.
  - vm_compute. reflexivity.
Defined.

(** ** Every call comes to its end *)

Lemma within_more {A : Type} (n : nat) (p : Prog A) : within n p -> within (S n) p.
Proof.
  induction 1 as [n p Hp|n oid k _ IH|n b k _ IH|n oid inc k _ IH].
  - now apply within_finished.
  - now apply within_find_one.
  - now apply within_create_document.
  - now apply within_update_one.
Qed.

Lemma within_create_booking (req : BookingRequest) : within 3 (create_booking req).
Proof.
  unfold create_booking.
  destruct (Bson.ObjectId (flight_id req)) as [fid|]; [|now apply within_finished].
  apply within_find_one. intros [flight|]; [|now apply within_finished].
  destruct (Schemas.seats_available (body flight) <? Py.len (passengers req));
    [now apply within_finished|].
  destruct (Schemas.Booking_ok _); [|now apply within_finished].
  apply within_create_document. intros bid.
  apply within_update_one. intros u. now apply within_finished.
Qed.

Lemma within_step {A : Type} (n : nat) (p : Prog A) (db : Store) :
  within n p -> within (Nat.pred n) (fst (step p db)).
Proof.
  intros H. destruct H as [n p Hp|n oid k Hk|n b k Hk|n oid inc k Hk].
  - rewrite (finished_step _ _ Hp). now apply within_finished.
  - apply Hk.
  - cbn [step]. unfold create_document. cbn [fst Nat.pred]. apply Hk.
  - apply Hk.
Qed.

Lemma within_zero {A : Type} (p : Prog A) : within 0 p -> finished p = true.
Proof. inversion 1; assumption. Qed.

Lemma nth_error_set_nth {A : Type} (l : list A) (j i : nat) (x y : A) :
  nth_error (set_nth j x l) i = Some y ->
  (i = j /\ y = x /\ nth_error l j <> None) \/ (i <> j /\ nth_error l i = Some y).
Proof.
  revert j i. induction l as [|a l IH]; intros j i H.
  - destruct j, i; discriminate H.
  - destruct j as [|j], i as [|i]; cbn [set_nth nth_error] in *.
    + left. injection H as <-. repeat split. discriminate.
    + right. split; [discriminate|exact H].
    + right. split; [discriminate|exact H].
    + destruct (IH _ _ H) as [(-> & -> & Hn)|(Hne & Hi)].
      * left. repeat split. exact Hn.
      * right. split; [congruence|exact Hi].
Qed.

Lemma set_nth_length {A : Type} (l : list A) (j : nat) (x : A) :
  List.length (set_nth j x l) = List.length l.
Proof.
  revert j. induction l as [|a l IH]; intros [|j]; cbn [set_nth List.length]; auto.
Qed.

Lemma exec_workers_length (schedule : list nat) (sys : System) :
  List.length (workers (exec schedule sys)) = List.length (workers sys).
Proof.
  revert sys. induction schedule as [|j schedule IH]; intros sys.
  - reflexivity.
  - cbn [exec fold_left]. fold (exec schedule (sched_step sys j)). rewrite IH.
    unfold sched_step. destruct (nth_error (workers sys) j) as [p|]; [|reflexivity].
    destruct (step p (store sys)). cbn [workers]. apply set_nth_length.
Qed.

Lemma sched_step_budget (budget : nat -> nat) (sys : System) (j : nat) :
  budgeted budget (workers sys) ->
  budgeted (fun i => if (i =? j)%nat then Nat.pred (budget i) else budget i)
           (workers (sched_step sys j)).
Proof.
  intros Hb i q Hq. unfold sched_step in Hq.
  destruct (nth_error (workers sys) j) as [p|] eqn:Hj.
  - pose proof (within_step _ p (store sys) (Hb _ _ Hj)) as Hstep.
    destruct (step p (store sys)) as [p' db']. cbn [workers fst] in *.
    destruct (nth_error_set_nth _ _ _ _ _ Hq) as [(-> & -> & _)|(Hne & Hi)].
    + now rewrite Nat.eqb_refl.
    + apply Nat.eqb_neq in Hne. rewrite Hne. now apply Hb.
  - destruct (Nat.eqb_spec i j) as [->|Hne]; [congruence|now apply Hb].
Qed.

Lemma exec_budget (schedule : list nat) (budget : nat -> nat) (sys : System) :
  budgeted budget (workers sys) ->
  budgeted (fun i => budget i - count_occ Nat.eq_dec schedule i)%nat
           (workers (exec schedule sys)).
Proof.
  revert budget sys. induction schedule as [|j schedule IH]; intros budget sys Hb.
  - intros i q Hq. cbn [count_occ]. rewrite Nat.sub_0_r. now apply Hb.
  - cbn [exec fold_left]. fold (exec schedule (sched_step sys j)).
    intros i q Hq.
    pose proof (IH _ _ (sched_step_budget budget sys j Hb) i q Hq) as H.
    cbn beta in H. cbn [count_occ].
    destruct (Nat.eq_dec j i) as [->|Hne].
    + rewrite Nat.eqb_refl in H.
      replace (budget i - S (count_occ Nat.eq_dec schedule i))%nat
        with (Nat.pred (budget i) - count_occ Nat.eq_dec schedule i)%nat by lia.
      exact H.
    + assert (Hf : (i =? j)%nat = false) by (apply Nat.eqb_neq; congruence).
      rewrite Hf in H. exact H.
Qed.

(** X14: no call hangs.  A call of [create_booking] has at most three store
    operations, whatever the store holds and whatever other calls do in
    between: under any schedule that gives every request three turns or
    more, all requests have been answered. *)
Theorem every_request_answered_after_three_turns
    (db : Store) (reqs : list BookingRequest) (schedule : list nat) :
  (forall i, (i < List.length reqs)%nat -> (3 <= count_occ Nat.eq_dec schedule i)%nat) ->
  quiescent (exec schedule (start db reqs)) = true
  /\ forall req db1, (List.length (trace (create_booking req) db1) <= 3)%nat.
Proof.
  intros Hfair. split.
  - unfold quiescent. apply forallb_forall. intros p Hp.
    destruct (In_nth_error _ _ Hp) as (i & Hi).
    assert (Hb : budgeted (fun _ => 3%nat) (workers (start db reqs))).
    { intros j q Hq. apply nth_error_In in Hq. cbn [start workers] in Hq.
      apply in_map_iff in Hq. destruct Hq as (r & <- & _). apply within_create_booking. }
    pose proof (exec_budget schedule _ _ Hb i p Hi) as H. cbn beta in H.
    assert (Hlt : (i < List.length reqs)%nat).
    { assert (Hsome : nth_error (workers (exec schedule (start db reqs))) i <> None)
        by congruence.
      apply nth_error_Some in Hsome.
      rewrite exec_workers_length in Hsome. cbn [start workers] in Hsome.
      now rewrite length_map in Hsome. }
    specialize (Hfair i Hlt).
    replace (3 - count_occ Nat.eq_dec schedule i)%nat with 0%nat in H by lia.
    now apply within_zero.
  - intros req db1. rewrite create_booking_trace.
    destruct (Bson.ObjectId (flight_id req)) as [fid|]; [|cbn; lia].
    destruct (find_one fid db1) as [f|]; [|cbn; lia].
    destruct (Schemas.seats_available (body f) <? Py.len (passengers req)); [cbn; lia|].
    destruct (Schemas.Booking_ok _); cbn [List.length]; lia.
Qed.

Lemma every_request_answered_after_three_turns_witness :
  quiescent (exec Scenario.turns
                  (start Scenario.seeded0 [Scenario.request 9%N 2; Scenario.request 9%N 3]))
  = true
  /\ forall req db1, (List.length (trace (create_booking req) db1) <= 3)%nat.
Proof.
  apply (every_request_answered_after_three_turns Scenario.seeded0
           [Scenario.request 9%N 2; Scenario.request 9%N 3] Scenario.turns).
  intros i Hi. cbn [List.length] in Hi.
  destruct i as [|[|i]]; [vm_compute; lia | vm_compute; lia | lia].
Defined.

(** ** A booking seen through the other endpoints *)

(** X15: the flight endpoint shows a booking at once.  After a call that
    succeeded, [get_flight] on the flight id of the request returns the
    flight with the passengers of the request taken from its seats and every
    other field as before, and leaves the store as it is. *)
Theorem flight_detail_reflects_booking
    (req : BookingRequest) (db db' : Store) (resp : BookingResponse) :
  run (create_booking req) db = (Ok resp, db') ->
  exists fid f f',
    find_one fid db = Some f
    /\ run (get_flight (flight_id req)) db' = (Ok (to_str_id f'), db')
    /\ same_but_seats f f'
    /\ Schemas.seats_available (body f')
       = Schemas.seats_available (body f) - Py.len (passengers req).
Proof.
  intros Hrun.
  destruct (run_create_booking_ok _ _ _ _ Hrun)
    as (fid & f & Hoid & Hfind & _ & _ & _ & ->).
  exists fid, f, (inc_seats (- Py.len (passengers req)) f).
  split; [exact Hfind|]. split.
  - unfold get_flight. rewrite Hoid. cbn [run].
    now rewrite find_one_update_one, find_one_create_document, Hfind, N.eqb_refl.
  - split; [repeat split|]. cbn [inc_seats body Schemas.seats_available]. lia.
Qed.

Lemma flight_detail_reflects_booking_witness :
  exists fid f f',
    find_one fid (Scenario.db_F 5) = Some f
    /\ run (get_flight (flight_id (Scenario.request Scenario.F_id 3)))
           (snd (run (create_booking (Scenario.request Scenario.F_id 3)) (Scenario.db_F 5)))
       = (Ok (to_str_id f'),
          snd (run (create_booking (Scenario.request Scenario.F_id 3)) (Scenario.db_F 5)))
    /\ same_but_seats f f'
    /\ Schemas.seats_available (body f')
       = Schemas.seats_available (body f)
         - Py.len (passengers (Scenario.request Scenario.F_id 3)).
Proof.
  apply (flight_detail_reflects_booking
           (Scenario.request Scenario.F_id 3) (Scenario.db_F 5)
           (snd (run (create_booking (Scenario.request Scenario.F_id 3)) (Scenario.db_F 5)))
           {| booking_id := Bson.str 2%N; status := "confirmed" |}).
  vm_compute. reflexivity.
Defined.

(** ** Ids in the answer of a search *)

Lemma NoDup_map_on {A B : Type} (f : A -> B) (l : list A) :
  NoDup l ->
  (forall x y, In x l -> In y l -> f x = f y -> x = y) ->
  NoDup (map f l).
Proof.
  induction 1 as [|a l Ha Hnd IH]; intros Hinj; cbn [map].
  - constructor.
  - constructor.
    + intros Hin. apply in_map_iff in Hin. destruct Hin as (y & Hy & Hin).
      apply Ha. rewrite <- (Hinj y a); [exact Hin|now right|now left|exact Hy].
    + apply IH. intros x y Hx Hy. apply Hinj; now right.
Qed.

Lemma NoDup_filter_map {A B : Type} (f : A -> B) (g : A -> bool) (l : list A) :
  NoDup (map f l) -> NoDup (map f (filter g l)).
Proof.
  induction l as [|a l IH]; cbn [map filter]; intros H.
  - constructor.
  - inversion H as [|? ? Hnotin Hnd]; subst.
    destruct (g a); cbn [map]; [|now apply IH].
    constructor; [|now apply IH].
    intros Hin. apply Hnotin. apply in_map_iff in Hin. destruct Hin as (x & Hx & Hin).
    apply filter_In in Hin. apply in_map_iff. exists x. tauto.
Qed.

(** X17: no flight is listed twice.  When the flights of the store have
    different ids that fit twelve bytes, the ids in the answer of a search
    are pairwise different strings of 24 characters. *)
Theorem search_results_have_distinct_ids (q : SearchQuery) (db : Store) :
  flight_ids_ok db ->
  NoDup (map _id (search_flights q db))
  /\ Forall (fun r => String.length (_id r) = 24%nat) (search_flights q db).
Proof.
  intros [Hnd Hfit].
  set (l := sort_by_departure (find_many (search_filter q) (flight db))).
  assert (Hperm : Permutation l (find_many (search_filter q) (flight db)))
    by apply sort_by_departure_perm.
  assert (Hin : forall d, In d l -> In d (flight db)).
  { intros d Hd. apply (Permutation_in _ Hperm) in Hd.
    unfold find_many in Hd. apply filter_In in Hd. tauto. }
  assert (Hids : NoDup (map _id l)).
  { apply (Permutation_NoDup (Permutation_sym (Permutation_map _id Hperm))).
    unfold find_many. now apply NoDup_filter_map. }
  rewrite Forall_forall in Hfit.
  unfold search_flights. fold l. split.
  - rewrite map_map. cbn [to_str_id _id].
    rewrite <- (map_map _id Bson.str).
    apply NoDup_map_on; [exact Hids|].
    intros a b Ha Hb Hab.
    apply in_map_iff in Ha, Hb.
    destruct Ha as (x & <- & Hx), Hb as (y & <- & Hy).
    apply str_injective; [apply Hfit, Hin, Hx|apply Hfit, Hin, Hy|exact Hab].
  - apply Forall_map. apply Forall_forall. intros d Hd. cbn [to_str_id _id].
    unfold Bson.str. now rewrite hex_str_length.
Qed.

Lemma search_results_have_distinct_ids_witness :
  map _id (search_flights
             (mk_SearchQuery "ika" "mhd" (Datetime.mk_datetime 739000 20 15 0 0))
             Scenario.db_GF)
  = ["000000000000000000000001"; "000000000000000000000002"]
  /\ NoDup (map _id (search_flights
                       (mk_SearchQuery "ika" "mhd" (Datetime.mk_datetime 739000 20 15 0 0))
                       Scenario.db_GF))
  /\ Forall (fun r => String.length (_id r) = 24%nat)
            (search_flights
               (mk_SearchQuery "ika" "mhd" (Datetime.mk_datetime 739000 20 15 0 0))
               Scenario.db_GF).
Proof.
  split; [vm_compute; reflexivity|].
  apply (search_results_have_distinct_ids
           (mk_SearchQuery "ika" "mhd" (Datetime.mk_datetime 739000 20 15 0 0))
           Scenario.db_GF).
  split.
  - cbv [Scenario.db_GF flight map Scenario.G Scenario.F _id Scenario.F_id].
    constructor; [intros [H|[]]; discriminate H|].
    constructor; [intros []|constructor].
  - cbv [Scenario.db_GF flight].
    constructor; [reflexivity|]. constructor; [reflexivity|constructor].
Defined.

(** ** Seeding a store that is not empty *)

(** X18: seeding never overwrites.  On any connected store, [ensure_seed]
    leaves the bookings as they are; a collection of airports or of flights
    that is not empty is left as it is; an empty collection of airports
    receives the five samples, and an empty collection of flights receives
    twenty flights when the clock is at 9999-12-27 or before (the five days
    of the seeding are dates).  Without a store there is nothing to do. *)
Theorem ensure_seed_fills_only_empty_collections
    (utcnow : Datetime.datetime) (db : Store) :
  ensure_seed utcnow None = None
  /\ exists db',
       ensure_seed utcnow (Some db) = Some db'
       /\ booking db' = booking db
       /\ (airport db <> [] -> airport db' = airport db)
       /\ (flight db <> [] -> flight db' = flight db)
       /\ (airport db = [] -> map body (airport db') = AIRPORTS_SAMPLE)
       /\ (flight db = [] -> five_days_ahead utcnow ->
           List.length (flight db') = 20%nat).
Proof.
  split; [reflexivity|].
  destruct (seed_flights_some (Datetime.replace_hour utcnow 6)) as (f & flights & Hseed & Hlen).
  unfold ensure_seed.
  rewrite (count_documents_zero (airport db)).
  destruct (airport db) as [|a al] eqn:Hair.
  - change (flight (insert_many_airport AIRPORTS_SAMPLE db)) with (flight db).
    rewrite (count_documents_zero (flight db)).
    destruct (flight db) as [|g gl] eqn:Hfl.
    + rewrite Hseed. eexists. split; [reflexivity|].
      unfold insert_many_flight, insert_many_airport. cbn [booking airport flight].
      rewrite Hair, Hfl.
      split; [reflexivity|]. split; [congruence|]. split; [congruence|].
      split; [intros _; reflexivity|]. intros _.
      rewrite app_nil_l, with_ids_length. cbn [List.length]. now rewrite Hlen.
    + eexists. split; [reflexivity|].
      unfold insert_many_airport. cbn [booking airport flight]. rewrite Hair, Hfl.
      split; [reflexivity|]. split; [congruence|]. split; [reflexivity|].
      split; [intros _; reflexivity|discriminate].
  - rewrite (count_documents_zero (flight db)).
    destruct (flight db) as [|g gl] eqn:Hfl.
    + rewrite Hseed. eexists. split; [reflexivity|].
      unfold insert_many_flight. cbn [booking airport flight]. rewrite Hair, Hfl.
      split; [reflexivity|]. split; [reflexivity|]. split; [congruence|].
      split; [discriminate|]. intros _.
      rewrite app_nil_l, with_ids_length. cbn [List.length]. now rewrite Hlen.
    + exists db. rewrite Hair, Hfl.
      split; [reflexivity|]. split; [reflexivity|]. repeat split; discriminate.
Qed.

Lemma ensure_seed_fills_only_empty_collections_witness :
  (exists db',
     ensure_seed Scenario.utcnow0 (Some (Scenario.db_F 2)) = Some db'
     /\ booking db' = booking (Scenario.db_F 2)
     /\ flight db' = flight (Scenario.db_F 2)
     /\ map body (airport db') = AIRPORTS_SAMPLE)
  /\ (exists db',
        ensure_seed Scenario.utcnow0 (Some Database.empty) = Some db'
        /\ List.length (flight db') = 20%nat).
Proof.
  split.
  - destruct (ensure_seed_fills_only_empty_collections Scenario.utcnow0 (Scenario.db_F 2))
      as [_ (db' & Hrun & Hb & _ & Hf & Ha & _)].
    exists db'. split; [exact Hrun|]. split; [exact Hb|].
    split; [apply Hf; discriminate|apply Ha; reflexivity].
  - destruct (ensure_seed_fills_only_empty_collections Scenario.utcnow0 Database.empty)
      as [_ (db' & Hrun & _ & _ & _ & _ & Hn)].
    exists db'. split; [exact Hrun|].
    apply Hn; [reflexivity|]. unfold five_days_ahead. simpl. lia.
Defined.
